(** * Pizza ordering page: cart and checkout state machine

    Shallow embedding of [src/App.jsx].  The React component [App] owns seven
    [useState] cells; every handler of the component is a function on the
    record of those cells.  The two asynchronous calls ([fetchPizzas] in the
    mount effect, [submitOrder] in [handleOrderSubmit]) are split at their
    [await]: the part before the [await] is a handler that emits a service
    call, the part after it is a continuation that runs when the promise
    settles.  A [Session] pairs the cells with the continuations that are
    still pending, and [step] says which events the rendered page offers.

    Modelling conventions:
    - strings are sequences of UTF-16 code units, so that [trim] removes
      exactly the ECMAScript white space and line terminators;
    - prices and totals are JavaScript numbers whose arithmetic is kept
      abstract ([JsNumber]): every result below holds for any interpretation
      of [+] and [*], IEEE doubles included;
    - ids are integers ([Z]); [===] on them is [Z.eqb];
    - quantities are numbers that hold integers ([Z]); the sums
      [quantity + 1] and [quantity - 1] are the IEEE 754 double sums
      ([js_add], [js_sub]), exact up to 2^53 and rounded beyond;
    - [console.error] is not modelled. *)

From Stdlib Require Import ZArith NArith List Bool String Ascii Lia Sorted.
Import ListNotations.
Local Open Scope Z_scope.

Set Implicit Arguments.

(** ** JavaScript strings *)

Definition jsstring : Type := list N.

Definition js (s : string) : jsstring :=
  map N_of_ascii (list_ascii_of_string s).

(** White space and line terminators of ECMAScript, the code units that
    [String.prototype.trim] strips. *)
Definition is_whitespace (c : N) : bool :=
  ((c =? 9) || (c =? 10) || (c =? 11) || (c =? 12) || (c =? 13) || (c =? 32)
   || (c =? 160) || (c =? 5760) || ((8192 <=? c) && (c <=? 8202))
   || (c =? 8232) || (c =? 8233) || (c =? 8239) || (c =? 8287)
   || (c =? 12288) || (c =? 65279))%N.

Fixpoint trimStart (s : jsstring) : jsstring :=
  match s with
  | [] => []
  | c :: rest => if is_whitespace c then trimStart rest else s
  end.

Definition trimEnd (s : jsstring) : jsstring := rev (trimStart (rev s)).

Definition trim (s : jsstring) : jsstring := trimEnd (trimStart s).

(** [s !== ''] *)
Definition nonempty_str (s : jsstring) : bool :=
  match s with [] => false | _ :: _ => true end.

(** Truthiness of a value that is a string, [null] or [undefined]. *)
Definition truthy (v : option jsstring) : bool :=
  match v with Some (_ :: _) => true | _ => false end.

(** [v || fallback] for such a value. *)
Definition or_else (v : option jsstring) (fallback : jsstring) : jsstring :=
  match v with Some (c :: r) => c :: r | _ => fallback end.

(** A string is blank when it is empty or holds white space only. *)
Definition blank (s : jsstring) : Prop := Forall (fun c => is_whitespace c = true) s.

(** ** Integers held in JavaScript numbers

    A JavaScript number is an IEEE 754 double.  Every integer of magnitude
    up to 2^53 is a double; a larger one is a double when it is a 53-bit
    significand times a power of two.  [round_double z] is the double
    nearest to the integer [z], the even significand winning a tie; a sum or
    difference of two such numbers is the exact result rounded that way.
    (Overflow to [Infinity] lies beyond 2^1023 and is not reached by adding
    or taking away 1.) *)

Definition round_double (z : Z) : Z :=
  let m := Z.abs z in
  if m <=? 2 ^ 53 then z
  else
    let u := 2 ^ (Z.log2 m - 52) in
    let q := m / u in
    let r := m mod u in
    let up := if 2 * r <? u then false
              else if u <? 2 * r then true
              else Z.odd q in
    Z.sgn z * ((if up then q + 1 else q) * u).

(** [a + b] and [a - b] on numbers that hold integers. *)
Definition js_add (a b : Z) : Z := round_double (a + b).

Definition js_sub (a b : Z) : Z := round_double (a - b).

(** ** JavaScript numbers used for money *)

Class JsNumber (num : Type) : Type := {
  num_zero : num;
  num_add : num -> num -> num;
  num_times : num -> Z -> num
}.

(** Exact integer amounts, used to run the model on concrete carts. *)
#[export] Instance Z_JsNumber : JsNumber Z :=
  {| num_zero := 0; num_add := Z.add; num_times := Z.mul |}.

Section Model.

Context (num : Type) {JN : JsNumber num}.

(** ** Data *)

Record Pizza : Type := mkPizza {
  pizza_id : Z;
  pizza_name : jsstring;
  pizza_description : jsstring;
  pizza_price : num
}.

(** An element of [cart]: [{ ...pizza, quantity }]. *)
Record CartItem : Type := mkCartItem {
  item_id : Z;
  item_name : jsstring;
  item_description : jsstring;
  item_price : num;
  item_quantity : Z
}.

Definition with_quantity (item : CartItem) (q : Z) : CartItem :=
  mkCartItem (item_id item) (item_name item) (item_description item)
             (item_price item) q.

Definition new_item (pizza : Pizza) : CartItem :=
  mkCartItem (pizza_id pizza) (pizza_name pizza) (pizza_description pizza)
             (pizza_price pizza) 1.

Record Confirmation : Type := mkConfirmation {
  conf_orderId : jsstring;
  conf_timestamp : jsstring;
  conf_total : num
}.

(** What [submitOrder] resolves with. *)
Record Response : Type := mkResponse {
  resp_orderId : jsstring;
  resp_status : jsstring;
  resp_timestamp : jsstring
}.

(** What a service rejects with: an object whose [message] may be missing. *)
Record JsError : Type := mkJsError { err_message : option jsstring }.

Record OrderLine : Type := mkOrderLine { pizzaId : Z; quantity : Z }.

Record OrderPayload : Type := mkOrderPayload {
  customerName : jsstring;
  address : jsstring;
  items : list OrderLine;
  total : num
}.

(** The seven [useState] cells of [App]. *)
Record AppState : Type := mkAppState {
  pizzas : list Pizza;
  cart : list CartItem;
  isPizzaLoading : bool;
  pizzaError : option jsstring;
  isSubmitting : bool;
  submissionError : option jsstring;
  orderConfirmation : option Confirmation
}.

Definition initialState : AppState :=
  mkAppState [] [] true None false None None.

Definition setPizzas (v : list Pizza) (s : AppState) : AppState :=
  mkAppState v (cart s) (isPizzaLoading s) (pizzaError s) (isSubmitting s)
             (submissionError s) (orderConfirmation s).

Definition setCart (v : list CartItem) (s : AppState) : AppState :=
  mkAppState (pizzas s) v (isPizzaLoading s) (pizzaError s) (isSubmitting s)
             (submissionError s) (orderConfirmation s).

Definition setIsPizzaLoading (v : bool) (s : AppState) : AppState :=
  mkAppState (pizzas s) (cart s) v (pizzaError s) (isSubmitting s)
             (submissionError s) (orderConfirmation s).

Definition setPizzaError (v : option jsstring) (s : AppState) : AppState :=
  mkAppState (pizzas s) (cart s) (isPizzaLoading s) v (isSubmitting s)
             (submissionError s) (orderConfirmation s).

Definition setIsSubmitting (v : bool) (s : AppState) : AppState :=
  mkAppState (pizzas s) (cart s) (isPizzaLoading s) (pizzaError s) v
             (submissionError s) (orderConfirmation s).

Definition setSubmissionError (v : option jsstring) (s : AppState) : AppState :=
  mkAppState (pizzas s) (cart s) (isPizzaLoading s) (pizzaError s)
             (isSubmitting s) v (orderConfirmation s).

Definition setOrderConfirmation (v : option Confirmation) (s : AppState) : AppState :=
  mkAppState (pizzas s) (cart s) (isPizzaLoading s) (pizzaError s)
             (isSubmitting s) (submissionError s) v.

(** ** Derived values *)

(** [cart.reduce((sum, item) => sum + item.price * item.quantity, 0)], the
    expression of both [OrderSummary] and [OrderForm]. *)
Definition subtotal (c : list CartItem) : num :=
  fold_left (fun sum item => num_add sum (num_times (item_price item) (item_quantity item)))
            c num_zero.

(** ** Menu loading: the two continuations of [loadMenu] *)

Definition loadMenu_resolved (data : list Pizza) (s : AppState) : AppState :=
  setIsPizzaLoading false (setPizzas data s).

Definition loadMenu_rejected (error : JsError) (s : AppState) : AppState :=
  setIsPizzaLoading false
    (setPizzaError (Some (js "Failed to load pizza menu. Please try again later.")) s).

(** ** Cart management *)

(** The updater that [handleAddToCart] passes to [setCart]. *)
Definition addToCart (pizza : Pizza) (prevCart : list CartItem) : list CartItem :=
  match find (fun item => item_id item =? pizza_id pizza) prevCart with
  | Some _ =>
      map (fun item =>
             if item_id item =? pizza_id pizza
             then with_quantity item (js_add (item_quantity item) 1)
             else item) prevCart
  | None => prevCart ++ [new_item pizza]
  end.

Definition handleAddToCart (pizza : Pizza) (s : AppState) : AppState :=
  setSubmissionError None (setCart (addToCart pizza (cart s)) s).

Definition removeFromCart (pizzaId : Z) (prevCart : list CartItem) : list CartItem :=
  filter (fun item => negb (item_id item =? pizzaId)) prevCart.

Definition handleRemoveItem (pizzaId : Z) (s : AppState) : AppState :=
  setCart (removeFromCart pizzaId (cart s)) s.

Definition updateInCart (pizzaId newQuantity : Z) (prevCart : list CartItem) : list CartItem :=
  map (fun item =>
         if item_id item =? pizzaId then with_quantity item newQuantity else item)
      prevCart.

Definition handleUpdateQuantity (pizzaId newQuantity : Z) (s : AppState) : AppState :=
  if newQuantity <=? 0 then handleRemoveItem pizzaId s
  else setCart (updateInCart pizzaId newQuantity (cart s)) s.

(** ** Order submission *)

(** The argument [{ name, address, total }] that [OrderForm] hands over. *)
Record Draft : Type := mkDraft {
  draft_name : jsstring;
  draft_address : jsstring;
  draft_total : num
}.

(** [handleOrderSubmit] suspended at its [await]: the payload given to
    [submitOrder] and the variable [total] that the continuation reads. *)
Record Suspended : Type := mkSuspended {
  sent : OrderPayload;
  kept_total : num
}.

Definition handleOrderSubmit (d : Draft) (s : AppState) : AppState * option Suspended :=
  if (List.length (cart s) =? 0)%nat || isSubmitting s then (s, None)
  else
    let s' := setOrderConfirmation None (setSubmissionError None (setIsSubmitting true s)) in
    let orderPayload :=
      mkOrderPayload (draft_name d) (draft_address d)
        (map (fun item => mkOrderLine (item_id item) (item_quantity item)) (cart s))
        (draft_total d) in
    (s', Some (mkSuspended orderPayload (draft_total d))).

(** The [try] branch after the [await], followed by [finally]. *)
Definition submit_resolved (kept : num) (response : Response) (s : AppState) : AppState :=
  setIsSubmitting false
    (setCart []
       (setOrderConfirmation
          (Some (mkConfirmation (resp_orderId response) (resp_timestamp response) kept)) s)).

(** The [catch] branch, followed by [finally]. *)
Definition submit_rejected (error : JsError) (s : AppState) : AppState :=
  setIsSubmitting false
    (setSubmissionError
       (Some (js "Order submission failed: " ++
              or_else (err_message error) (js "Unknown Server Error"))) s).

(** [OrderForm]: [canSubmit] and the form's [handleSubmit], with the two
    text fields given as arguments. *)
Definition canSubmit (c : list CartItem) (name address : jsstring) (submitting : bool) : bool :=
  (0 <? List.length c)%nat && nonempty_str (trim name) && nonempty_str (trim address)
  && negb submitting.

Definition OrderForm_handleSubmit (name address : jsstring) (s : AppState)
  : AppState * option Suspended :=
  if canSubmit (cart s) name address (isSubmitting s)
  then handleOrderSubmit (mkDraft name address (subtotal (cart s))) s
  else (s, None).

(** The button of the confirmation screen. *)
Definition placeAnotherOrder (s : AppState) : AppState :=
  setOrderConfirmation None s.

End Model.

(** ** Sessions: the component together with its pending promises *)

Section Session.

Context (num : Type) {JN : JsNumber num}.

(** [fetchPending]: the promise of the mount effect has not settled yet.
    [submitPending]: [handleOrderSubmit] is suspended at its [await]; the
    value is the [total] its continuation will read. *)
Record Session : Type := mkSession {
  app : AppState num;
  fetchPending : bool;
  submitPending : option num
}.

Inductive ServiceCall : Type :=
| CallFetchPizzas
| CallSubmitOrder (payload : OrderPayload num).

(** What can happen to the page.  Clicks name the row they hit by its
    position in the rendered list; [EvSubmitForm] carries the contents of the
    two text fields at the time the form is submitted. *)
Inductive Event : Type :=
| EvFetchResolved (data : list (Pizza num))
| EvFetchRejected (error : JsError)
| EvClickAdd (i : nat)
| EvClickMinus (i : nat)
| EvClickPlus (i : nat)
| EvClickRemove (i : nat)
| EvSubmitForm (name address : jsstring)
| EvSubmitResolved (response : Response)
| EvSubmitRejected (error : JsError)
| EvPlaceAnother.

(** First render and the effect with the empty dependency list. *)
Definition mount : Session * list ServiceCall :=
  (mkSession (initialState num) true None, [CallFetchPizzas]).

(** [if (orderConfirmation)] is false: the main screen is rendered. *)
Definition main_screen (s : AppState num) : bool :=
  match orderConfirmation s with Some _ => false | None => true end.

(** [!isPizzaLoading && !pizzaError]: the pizza cards are rendered. *)
Definition menu_listed (s : AppState num) : bool :=
  negb (isPizzaLoading s) && negb (truthy (pizzaError s)).

Definition with_app (sess : Session) (s : AppState num) : Session :=
  mkSession s (fetchPending sess) (submitPending sess).

(** One event, run to completion.  [None]: the page does not offer the event
    in this state (the control is not rendered or is disabled, or no promise
    is pending). *)
Definition step (sess : Session) (ev : Event) : option (Session * list ServiceCall) :=
  let s := app sess in
  match ev with
  | EvFetchResolved data =>
      if fetchPending sess
      then Some (mkSession (loadMenu_resolved data s) false (submitPending sess), [])
      else None
  | EvFetchRejected error =>
      if fetchPending sess
      then Some (mkSession (loadMenu_rejected error s) false (submitPending sess), [])
      else None
  | EvClickAdd i =>
      if main_screen s && menu_listed s then
        match nth_error (pizzas s) i with
        | Some pizza => Some (with_app sess (handleAddToCart pizza s), [])
        | None => None
        end
      else None
  | EvClickMinus i =>
      if main_screen s then
        match nth_error (cart s) i with
        | Some item =>
            if item_quantity item <=? 1 then None
            else Some (with_app sess
                         (handleUpdateQuantity (item_id item)
                                               (js_sub (item_quantity item) 1) s), [])
        | None => None
        end
      else None
  | EvClickPlus i =>
      if main_screen s then
        match nth_error (cart s) i with
        | Some item =>
            Some (with_app sess
                    (handleUpdateQuantity (item_id item)
                                          (js_add (item_quantity item) 1) s), [])
        | None => None
        end
      else None
  | EvClickRemove i =>
      if main_screen s then
        match nth_error (cart s) i with
        | Some item => Some (with_app sess (handleRemoveItem (item_id item) s), [])
        | None => None
        end
      else None
  | EvSubmitForm name address =>
      if main_screen s then
        match OrderForm_handleSubmit name address s with
        | (s', Some k) =>
            Some (mkSession s' (fetchPending sess) (Some (kept_total k)),
                  [CallSubmitOrder (sent k)])
        | (s', None) => Some (with_app sess s', [])
        end
      else None
  | EvSubmitResolved response =>
      match submitPending sess with
      | Some kept =>
          Some (mkSession (submit_resolved kept response s) (fetchPending sess) None, [])
      | None => None
      end
  | EvSubmitRejected error =>
      match submitPending sess with
      | Some _ =>
          Some (mkSession (submit_rejected error s) (fetchPending sess) None, [])
      | None => None
      end
  | EvPlaceAnother =>
      if main_screen s then None
      else Some (with_app sess (placeAnotherOrder s), [])
  end.

(** A sequence of events; the calls issued are collected in order. *)
Fixpoint run (sess : Session) (evs : list Event) : option (Session * list ServiceCall) :=
  match evs with
  | [] => Some (sess, [])
  | ev :: rest =>
      match step sess ev with
      | Some (sess', calls) =>
          match run sess' rest with
          | Some (sess'', calls') => Some (sess'', calls ++ calls')
          | None => None
          end
      | None => None
      end
  end.

(** The sessions the page can be in. *)
Inductive reachable : Session -> Prop :=
| reachable_mount : reachable (fst mount)
| reachable_step sess ev sess' calls :
    reachable sess -> step sess ev = Some (sess', calls) -> reachable sess'.

Definition is_fetch_call (c : ServiceCall) : bool :=
  match c with CallFetchPizzas => true | CallSubmitOrder _ => false end.

Definition is_cart_event (ev : Event) : bool :=
  match ev with
  | EvClickAdd _ | EvClickMinus _ | EvClickPlus _ | EvClickRemove _ => true
  | _ => false
  end.

Definition is_settlement (ev : Event) : bool :=
  match ev with
  | EvSubmitResolved _ | EvSubmitRejected _ => true
  | _ => false
  end.

(** ** The cart operations as a caller may invoke them *)

Inductive CartOp : Type :=
| AddItem (item : Pizza num)
| SetQuantity (itemId : Z) (newQuantity : Z)
| RemoveItem (itemId : Z).

Definition apply_op (s : AppState num) (op : CartOp) : AppState num :=
  match op with
  | AddItem item => handleAddToCart item s
  | SetQuantity itemId n => handleUpdateQuantity itemId n s
  | RemoveItem itemId => handleRemoveItem itemId s
  end.

Definition apply_ops (s : AppState num) (ops : list CartOp) : AppState num :=
  fold_left apply_op ops s.

End Session.

Arguments CallFetchPizzas {num}.
Arguments EvFetchRejected {num} error.
Arguments EvClickAdd {num} i.
Arguments EvClickMinus {num} i.
Arguments EvClickPlus {num} i.
Arguments EvClickRemove {num} i.
Arguments EvSubmitForm {num} name address.
Arguments EvSubmitResolved {num} response.
Arguments EvSubmitRejected {num} error.
Arguments EvPlaceAnother {num}.
Arguments SetQuantity {num} itemId newQuantity.
Arguments RemoveItem {num} itemId.

(** ** Creation stamps of cart lines

    A line is created by the [AddItem] that finds no line for its id, lives
    through further [AddItem]s and positive [SetQuantity]s, and is destroyed
    by [RemoveItem] or by a [SetQuantity] that is not positive.  [stamp_step]
    follows one id through one operation: [cur] is the position of the
    operation that created the line now standing for [x], if there is one. *)

Definition stamp_step {num : Type} (x : Z) (k : nat) (cur : option nat) (op : CartOp num)
  : option nat :=
  match op with
  | AddItem item =>
      if pizza_id item =? x
      then match cur with Some a => Some a | None => Some k end
      else cur
  | SetQuantity itemId n =>
      if (itemId =? x) && (n <=? 0) then None else cur
  | RemoveItem itemId =>
      if itemId =? x then None else cur
  end.

Fixpoint stamp_from {num : Type} (x : Z) (k : nat) (cur : option nat) (ops : list (CartOp num))
  : option nat :=
  match ops with
  | [] => cur
  | op :: rest => stamp_from x (S k) (stamp_step x k cur op) rest
  end.

(** Position in [ops] of the operation that created the line for [x] that
    exists after [ops]; [None] when there is no such line. *)
Definition created_at {num : Type} (ops : list (CartOp num)) (x : Z) : option nat :=
  stamp_from x 0 None ops.

(** [x] was created before [y]. *)
Definition created_before {num : Type} (ops : list (CartOp num)) (x y : Z) : Prop :=
  match created_at ops x, created_at ops y with
  | Some a, Some b => (a < b)%nat
  | _, _ => False
  end.

(** ** Predicates used to state the properties *)

Section Auxiliary.

Context {num : Type}.

Implicit Types (c : list (CartItem num)) (ops : list (CartOp num)) (op : CartOp num).

(** No line of the cart has id [k]. *)
Definition absent (k : Z) c : Prop := forall item, In item c -> item_id item <> k.

Definition ids c : list Z := map (@item_id num) c.

(** The effect of one operation on the cart alone. *)
Definition cart_op c op : list (CartItem num) :=
  match op with
  | AddItem item => addToCart item c
  | SetQuantity itemId n =>
      if n <=? 0 then removeFromCart itemId c else updateInCart itemId n c
  | RemoveItem itemId => removeFromCart itemId c
  end.

(** Everything the induction carries: no id twice, quantities at least 1, the
    ids of the cart are exactly those with a creation stamp, stamps point
    into the operations seen so far, and ids stand in the order of their
    stamps. *)
Definition cart_inv ops c : Prop :=
  NoDup (ids c) /\
  Forall (fun item => 1 <= item_quantity item) c /\
  (forall x, In x (ids c) <-> created_at ops x <> None) /\
  (forall x a, created_at ops x = Some a -> (a < List.length ops)%nat) /\
  StronglySorted (created_before ops) (ids c).

(** Whether [handleOrderSubmit] is suspended. *)
Definition pending_flag (p : option num) : bool :=
  match p with Some _ => true | None => false end.

(** What holds in every session the page can reach: the loading flag is up
    exactly while the fetch is pending; the submitting flag is up exactly
    while a submission is suspended; while submitting there is neither an
    error nor a confirmation; a confirmation comes with an empty cart and no
    error; while the menu loads nothing else has happened yet; a menu error
    comes with an empty menu. *)
Definition session_ok (sess : Session num) : Prop :=
  fetchPending sess = isPizzaLoading (app sess) /\
  isSubmitting (app sess) = pending_flag (submitPending sess) /\
  (isSubmitting (app sess) = true ->
   submissionError (app sess) = None /\ orderConfirmation (app sess) = None) /\
  (orderConfirmation (app sess) <> None ->
   cart (app sess) = [] /\ submissionError (app sess) = None) /\
  (isPizzaLoading (app sess) = true ->
   cart (app sess) = [] /\ isSubmitting (app sess) = false /\
   orderConfirmation (app sess) = None /\
   pizzaError (app sess) = None /\ pizzas (app sess) = []) /\
  (pizzaError (app sess) <> None -> pizzas (app sess) = []).

(** Events during which a pending submission stays pending. *)
Definition no_settlement (evs : list (Event num)) : bool :=
  forallb (fun ev => negb (is_settlement ev)) evs.

Definition no_cart_event (evs : list (Event num)) : bool :=
  forallb (fun ev => negb (is_cart_event ev)) evs.

End Auxiliary.

(** ** Sample data: the scenario of the specification

    Two items, A at 10 and B at 5, with exact integer amounts. *)

Definition pizzaA : Pizza Z := mkPizza 1 (js "A") (js "first item") 10.
Definition pizzaB : Pizza Z := mkPizza 2 (js "B") (js "second item") 5.
Definition sample_menu : list (Pizza Z) := [pizzaA; pizzaB].
Definition ann : jsstring := js "Ann".
Definition main_street : jsstring := js " 1 Main St ".
Definition sample_response : Response :=
  mkResponse (js "ORD-1") (js "RECEIVED") (js "2024-01-01T00:00:00.000Z").
Definition server_rejected : JsError :=
  mkJsError (Some (js "Server rejected the order due to invalid data.")).

(** Menu loaded, A added twice, B once. *)
Definition fill_cart : list (Event Z) :=
  [EvFetchResolved sample_menu; EvClickAdd 0; EvClickAdd 0; EvClickAdd 1].

Definition session_after (evs : list (Event Z)) : Session Z :=
  match run (fst (mount Z)) evs with
  | Some (sess, _) => sess
  | None => fst (mount Z)
  end.

(** A state whose cart holds A alone, at quantity 2^53. *)
Definition cart_at_2_53 : AppState Z :=
  setCart [with_quantity (new_item pizzaA) (2 ^ 53)] (initialState Z).

(** The form submitted with a name and an address that are not blank. *)
Definition submit_ann : Event Z := EvSubmitForm ann main_street.

(** A line removed and added again, and a quantity set. *)
Definition rebuilt_cart : list (CartOp Z) :=
  [AddItem pizzaA; AddItem pizzaB; RemoveItem 1; AddItem pizzaA; SetQuantity 2 5].

(** ** Further vocabulary *)

(** What a cart line says about the item, the quantity left aside. *)
Definition item_fields {num : Type} (item : CartItem num) : Z * jsstring * jsstring * num :=
  (item_id item, item_name item, item_description item, item_price item).

(** The same four values of a menu entry. *)
Definition pizza_fields {num : Type} (pizza : Pizza num) : Z * jsstring * jsstring * num :=
  (pizza_id pizza, pizza_name pizza, pizza_description pizza, pizza_price pizza).

Section MoreVocabulary.

Context {num : Type}.

(** Every line of the cart is an entry of the menu with a quantity, no id
    occurs twice and every quantity is at least 1. *)
Definition cart_good (s : AppState num) : Prop :=
  NoDup (ids (cart s)) /\
  Forall (fun item => 1 <= item_quantity item) (cart s) /\
  Forall (fun item => exists pizza,
              In pizza (pizzas s) /\ pizza_fields pizza = item_fields item) (cart s).

(** Calls to [submitOrder] among the calls issued. *)
Definition submit_calls (calls : list (ServiceCall num)) : nat :=
  List.length (filter (fun c => negb (is_fetch_call c)) calls).

(** Settlements of [submitOrder] among the events. *)
Definition settlements (evs : list (Event num)) : nat :=
  List.length (filter (@is_settlement num) evs).

(** 1 while [handleOrderSubmit] is suspended, 0 otherwise. *)
Definition pending_count (sess : Session num) : nat :=
  if pending_flag (submitPending sess) then 1%nat else 0%nat.

(** The three things the menu section can show; the section is part of the
    main screen only. *)
Definition shows_loading (s : AppState num) : bool :=
  main_screen s && isPizzaLoading s.

Definition shows_menu_error (s : AppState num) : bool :=
  main_screen s && truthy (pizzaError s).

Definition shows_cards (s : AppState num) : bool :=
  main_screen s && menu_listed s.

(** The events that clear the submission error: a click on a pizza card, and
    a submission of the form that issues a call. *)
Definition clears_error (ev : Event num) (calls : list (ServiceCall num)) : bool :=
  match ev with
  | EvClickAdd _ => true
  | EvSubmitForm _ _ => match calls with [] => false | _ :: _ => true end
  | _ => false
  end.

(** Nothing is in the cart, in flight or confirmed. *)
Definition nothing_ordered (sess : Session num) : Prop :=
  cart (app sess) = [] /\ submitPending sess = None /\ orderConfirmation (app sess) = None.

End MoreVocabulary.

(** ** The order form with its text fields

    [OrderForm] keeps [name] and [address] in two [useState] cells of its
    own, changed by the [onChange] of the two inputs, which are disabled
    while [isSubmitting].  The component belongs to the main screen only:
    while the confirmation screen is shown it is not mounted and its cells
    do not exist; when the main screen is rendered again it is mounted anew,
    with both cells at the empty string. *)

Record FormFields : Type := mkFormFields {
  field_name : jsstring;
  field_address : jsstring
}.

Section Page.

Context (num : Type) {JN : JsNumber num}.

(** [form] is [None] while [OrderForm] is not mounted. *)
Record Page : Type := mkPage {
  session : Session num;
  form : option FormFields
}.

(** Typing into a field, pressing the submit button with the fields as they
    are, or any event of the session other than a submission of the form. *)
Inductive PageEvent : Type :=
| PgTypeName (value : jsstring)
| PgTypeAddress (value : jsstring)
| PgSubmit
| PgSession (ev : Event num).

(** The cells of [OrderForm] after a render of [App] in state [s]. *)
Definition render_form (before : option FormFields) (s : AppState num) : option FormFields :=
  if main_screen s then
    match before with
    | Some f => Some f
    | None => Some (mkFormFields [] [])
    end
  else None.

Definition mount_page : Page * list (ServiceCall num) :=
  (mkPage (fst (mount num)) (Some (mkFormFields [] [])), snd (mount num)).

Definition after_session_step (pg : Page) (r : option (Session num * list (ServiceCall num)))
  : option (Page * list (ServiceCall num)) :=
  match r with
  | Some (sess', calls) => Some (mkPage sess' (render_form (form pg) (app sess')), calls)
  | None => None
  end.

Definition page_step (pg : Page) (ev : PageEvent) : option (Page * list (ServiceCall num)) :=
  match ev with
  | PgTypeName value =>
      match form pg with
      | Some f =>
          if isSubmitting (app (session pg)) then None
          else Some (mkPage (session pg) (Some (mkFormFields value (field_address f))), [])
      | None => None
      end
  | PgTypeAddress value =>
      match form pg with
      | Some f =>
          if isSubmitting (app (session pg)) then None
          else Some (mkPage (session pg) (Some (mkFormFields (field_name f) value)), [])
      | None => None
      end
  | PgSubmit =>
      match form pg with
      | Some f =>
          after_session_step pg
            (step (session pg) (EvSubmitForm (field_name f) (field_address f)))
      | None => None
      end
  | PgSession ev =>
      match ev with
      | EvSubmitForm _ _ => None
      | _ => after_session_step pg (step (session pg) ev)
      end
  end.

Fixpoint page_run (pg : Page) (evs : list PageEvent)
  : option (Page * list (ServiceCall num)) :=
  match evs with
  | [] => Some (pg, [])
  | ev :: rest =>
      match page_step pg ev with
      | Some (pg', calls) =>
          match page_run pg' rest with
          | Some (pg'', calls') => Some (pg'', calls ++ calls')
          | None => None
          end
      | None => None
      end
  end.

Inductive page_reachable : Page -> Prop :=
| page_reachable_mount : page_reachable (fst mount_page)
| page_reachable_step pg ev pg' calls :
    page_reachable pg -> page_step pg ev = Some (pg', calls) -> page_reachable pg'.

Definition is_page_settlement (ev : PageEvent) : bool :=
  match ev with
  | PgSession ev => is_settlement ev
  | _ => false
  end.

Definition no_page_settlement (evs : list PageEvent) : bool :=
  forallb (fun ev => negb (is_page_settlement ev)) evs.

End Page.

Arguments PgTypeName {num} value.
Arguments PgTypeAddress {num} value.
Arguments PgSubmit {num}.

(** ** Sample data for the form *)

(** Menu loaded, A twice and B once in the cart, both fields typed. *)
Definition fill_page : list (PageEvent Z) :=
  map (@PgSession Z) fill_cart ++ [PgTypeName ann; PgTypeAddress main_street].

Definition page_after (evs : list (PageEvent Z)) : Page Z :=
  match page_run (fst (mount_page Z)) evs with
  | Some (pg, _) => pg
  | None => fst (mount_page Z)
  end.

Definition network_error : JsError :=
  mkJsError (Some (js "Network error fetching menu.")).

Definition lineA2 : CartItem Z := mkCartItem 1 (js "A") (js "first item") 10 2.

Definition sent_order : OrderPayload Z :=
  mkOrderPayload ann main_street [mkOrderLine 1 2; mkOrderLine 2 1] 25.

(** * Properties *)

(** ** Sums of integers in doubles *)

Lemma round_double_exact (z : Z) : Z.abs z <= 2 ^ 53 -> round_double z = z.
Proof.
  intro H. unfold round_double. apply Z.leb_le in H. now rewrite H.
Qed.

Lemma round_double_positive (z : Z) : 1 <= z -> 1 <= round_double z.
Proof.
  intro H. unfold round_double.
  destruct (Z.abs z <=? 2 ^ 53) eqn:E; [exact H|].
  apply Z.leb_gt in E.
  rewrite (Z.abs_eq z) in * by lia.
  rewrite Z.sgn_pos by lia.
  assert (L : 53 <= Z.log2 z) by (apply Z.log2_le_pow2; lia).
  destruct (Z.log2_spec z) as [Lo _]; [lia|].
  set (u := 2 ^ (Z.log2 z - 52)).
  assert (U : 0 < u) by (apply Z.pow_pos_nonneg; lia).
  assert (Ule : u <= z).
  { transitivity (2 ^ Z.log2 z); [|exact Lo].
    apply Z.pow_le_mono_r; lia. }
  assert (Q : 1 <= z / u) by (apply Z.div_le_lower_bound; lia).
  destruct (if 2 * (z mod u) <? u then false
            else if u <? 2 * (z mod u) then true else Z.odd (z / u)); nia.
Qed.

Lemma js_add_exact (a b : Z) : Z.abs (a + b) <= 2 ^ 53 -> js_add a b = a + b.
Proof. apply round_double_exact. Qed.

Lemma js_sub_exact (a b : Z) : Z.abs (a - b) <= 2 ^ 53 -> js_sub a b = a - b.
Proof. apply round_double_exact. Qed.

(** Up to 2^53 every integer is kept; just above, only every second one, and
    a tie goes to the even significand. *)
Example round_double_around_2_53 :
  round_double (2 ^ 53 - 1) = 2 ^ 53 - 1 /\
  round_double (2 ^ 53 + 1) = 2 ^ 53 /\
  round_double (2 ^ 53 + 2) = 2 ^ 53 + 2 /\
  round_double (2 ^ 53 + 3) = 2 ^ 53 + 4 /\
  round_double (2 ^ 54 + 2) = 2 ^ 54 /\
  round_double (2 ^ 54 + 6) = 2 ^ 54 + 8 /\
  round_double (- 2 ^ 53 - 1) = - 2 ^ 53.
Proof. repeat split. Qed.

(** ** Strings *)

Lemma trimStart_nil_iff (s : jsstring) :
  trimStart s = [] <-> forallb is_whitespace s = true.
Proof.
  induction s as [|c r IH]; simpl.
  - split; reflexivity.
  - destruct (is_whitespace c); simpl.
    + exact IH.
    + split; discriminate.
Qed.

Lemma forallb_trimStart (s : jsstring) :
  forallb is_whitespace (trimStart s) = forallb is_whitespace s.
Proof.
  induction s as [|c r IH]; simpl; [reflexivity|].
  destruct (is_whitespace c) eqn:E; simpl; [exact IH|].
  now rewrite E.
Qed.

Lemma forallb_rev {A : Type} (f : A -> bool) (l : list A) :
  forallb f (rev l) = forallb f l.
Proof.
  induction l as [|a l IH]; simpl; [reflexivity|].
  rewrite forallb_app, IH; simpl.
  rewrite andb_true_r. apply andb_comm.
Qed.

Lemma trim_nil_iff (s : jsstring) :
  trim s = [] <-> forallb is_whitespace s = true.
Proof.
  unfold trim, trimEnd.
  rewrite <- (forallb_trimStart s), <- (forallb_rev _ (trimStart s)),
    <- trimStart_nil_iff.
  split; intro H.
  - apply (f_equal (@rev N)) in H. rewrite rev_involutive in H. exact H.
  - rewrite H. reflexivity.
Qed.

Lemma blank_iff (s : jsstring) : blank s <-> forallb is_whitespace s = true.
Proof.
  unfold blank. rewrite forallb_forall, Forall_forall. reflexivity.
Qed.

Lemma nonempty_trim_false (s : jsstring) :
  nonempty_str (trim s) = false <-> blank s.
Proof.
  rewrite blank_iff, <- trim_nil_iff.
  destruct (trim s); simpl; split; intro H; congruence.
Qed.

Lemma nonempty_trim_true (s : jsstring) :
  nonempty_str (trim s) = true <-> ~ blank s.
Proof.
  rewrite <- nonempty_trim_false.
  destruct (nonempty_str (trim s)); split; intro H; congruence.
Qed.

(** ** Submit: the guard *)

Lemma length_zero_nil {A : Type} (l : list A) :
  (List.length l =? 0)%nat = true <-> l = [].
Proof. destruct l; simpl; split; intro H; congruence. Qed.

Lemma canSubmit_true {num : Type} (c : list (CartItem num)) (name address : jsstring) (b : bool) :
  canSubmit c name address b = true <->
  c <> [] /\ ~ blank name /\ ~ blank address /\ b = false.
Proof.
  unfold canSubmit.
  rewrite !andb_true_iff, !nonempty_trim_true, negb_true_iff.
  destruct c; unfold Nat.ltb; simpl; intuition congruence.
Qed.

Lemma canSubmit_false {num : Type} (c : list (CartItem num)) (name address : jsstring) (b : bool) :
  canSubmit c name address b = false <->
  c = [] \/ blank name \/ blank address \/ b = true.
Proof.
  unfold canSubmit.
  rewrite !andb_false_iff, !nonempty_trim_false, negb_false_iff.
  destruct c; unfold Nat.ltb; simpl; intuition congruence.
Qed.

Lemma submitting_differs {num : Type} (s : AppState num) :
  isSubmitting s = false ->
  setOrderConfirmation None (setSubmissionError None (setIsSubmitting true s)) <> s.
Proof.
  intros H E. apply (f_equal (@isSubmitting num)) in E. simpl in E. congruence.
Qed.

(** What [OrderForm_handleSubmit] does once [canSubmit] holds. *)
Lemma submit_accepted {num : Type} {JN : JsNumber num}
      (name address : jsstring) (s : AppState num) :
  canSubmit (cart s) name address (isSubmitting s) = true ->
  OrderForm_handleSubmit name address s =
  (setOrderConfirmation None (setSubmissionError None (setIsSubmitting true s)),
   Some (mkSuspended
           (mkOrderPayload name address
              (map (fun item => mkOrderLine (item_id item) (item_quantity item)) (cart s))
              (subtotal (cart s)))
           (subtotal (cart s)))).
Proof.
  intro H. unfold OrderForm_handleSubmit. rewrite H.
  apply canSubmit_true in H. destruct H as (Hc & _ & _ & Hs).
  unfold handleOrderSubmit. rewrite Hs, orb_false_r.
  destruct (cart s) eqn:E; [congruence|]. reflexivity.
Qed.

Lemma with_app_same {num : Type} (sess : Session num) : with_app sess (app sess) = sess.
Proof. destruct sess; reflexivity. Qed.

(** C1.  Submitting the form is refused, leaving every state cell as it was
    and calling [submitOrder] not at all, whenever the cart is empty, the name
    or the address is blank (empty or white space only), or a submission is in
    flight; on the rendered page the event then changes nothing in the session
    either.  In every other case the submission proceeds: the state enters
    submitting with error and confirmation cleared, which is a different
    state, and one call is suspended. *)
Theorem C1_submit_guard {num : Type} {JN : JsNumber num}
        (name address : jsstring) (sess : Session num) :
  (cart (app sess) = [] \/ blank name \/ blank address \/ isSubmitting (app sess) = true ->
   OrderForm_handleSubmit name address (app sess) = (app sess, None) /\
   (main_screen (app sess) = true ->
    step sess (EvSubmitForm name address) = Some (sess, [])))
  /\
  (~ (cart (app sess) = [] \/ blank name \/ blank address \/ isSubmitting (app sess) = true) ->
   exists k,
     OrderForm_handleSubmit name address (app sess) =
     (setOrderConfirmation None (setSubmissionError None (setIsSubmitting true (app sess))),
      Some k) /\
     setOrderConfirmation None (setSubmissionError None (setIsSubmitting true (app sess)))
     <> app sess /\
     (main_screen (app sess) = true ->
      exists sess', step sess (EvSubmitForm name address)
                    = Some (sess', [CallSubmitOrder (sent k)]) /\
                    isSubmitting (app sess') = true)).
Proof.
  split.
  - intro H. apply canSubmit_false in H.
    assert (E : OrderForm_handleSubmit name address (app sess) = (app sess, None)).
    { unfold OrderForm_handleSubmit. now rewrite H. }
    split; [exact E|].
    intro M. unfold step. rewrite M, E, with_app_same. reflexivity.
  - intro H.
    assert (C : canSubmit (cart (app sess)) name address (isSubmitting (app sess)) = true).
    { destruct (canSubmit (cart (app sess)) name address (isSubmitting (app sess))) eqn:E;
        [reflexivity|].
      apply canSubmit_false in E. contradiction. }
    pose proof (submit_accepted name address (app sess) C) as E.
    eexists. split; [exact E|]. split.
    + apply submitting_differs. apply canSubmit_true in C. tauto.
    + intro M. eexists. unfold step. rewrite M, E. split; reflexivity.
Qed.

(** C6.  A submission that passes the guard calls [submitOrder] exactly once;
    the payload carries the name and the address as typed, one
    [{pizzaId, quantity}] per cart line in cart order, and as [total] the
    subtotal of the cart, the left-to-right sum of price times quantity
    starting from zero.  The suspended continuation keeps that same total.
    On the rendered page the event issues that one call and nothing else. *)
Theorem C6_submit_payload {num : Type} {JN : JsNumber num}
        (name addr : jsstring) (sess : Session num) :
  cart (app sess) <> [] -> ~ blank name -> ~ blank addr ->
  isSubmitting (app sess) = false ->
  exists s' payload,
    OrderForm_handleSubmit name addr (app sess)
    = (s', Some (mkSuspended payload (total payload))) /\
    customerName payload = name /\
    address payload = addr /\
    items payload =
      map (fun item => mkOrderLine (item_id item) (item_quantity item)) (cart (app sess)) /\
    total payload = subtotal (cart (app sess)) /\
    total payload =
      fold_left (fun sum item => num_add sum (num_times (item_price item) (item_quantity item)))
                (cart (app sess)) num_zero /\
    (main_screen (app sess) = true ->
     exists sess',
       step sess (EvSubmitForm name addr) = Some (sess', [CallSubmitOrder payload]) /\
       submitPending sess' = Some (total payload)).
Proof.
  intros Hc Hn Ha Hs.
  assert (C : canSubmit (cart (app sess)) name addr (isSubmitting (app sess)) = true).
  { apply canSubmit_true. tauto. }
  pose proof (submit_accepted name addr (app sess) C) as E.
  do 2 eexists. split; [exact E|]. simpl.
  do 5 (split; [reflexivity|]).
  intro M. eexists. unfold step. rewrite M, E. split; reflexivity.
Qed.

(** ** Cart operations *)

Section CartLemmas.

Context {num : Type}.

Implicit Types (c pre post : list (CartItem num)) (item : CartItem num).


Lemma absent_app k pre post : absent k (pre ++ post) <-> absent k pre /\ absent k post.
Proof.
  unfold absent. split.
  - intro H. split; intros x Hx; apply H, in_or_app; auto.
  - intros [H1 H2] x Hx. apply in_app_or in Hx. destruct Hx; auto.
Qed.

Lemma absent_cons k item c : absent k (item :: c) <-> item_id item <> k /\ absent k c.
Proof.
  unfold absent. split.
  - intro H. split; [apply H; left; reflexivity | intros x Hx; apply H; right; exact Hx].
  - intros [H1 H2] x [<-|Hx]; auto.
Qed.

Lemma map_absent k (f : CartItem num -> CartItem num) c :
  absent k c -> map (fun item => if item_id item =? k then f item else item) c = c.
Proof.
  induction c as [|a c IH]; intro H; simpl; [reflexivity|].
  apply absent_cons in H. destruct H as [Ha Hc].
  apply Z.eqb_neq in Ha. rewrite Ha, IH by assumption. reflexivity.
Qed.

Lemma map_single k (f : CartItem num -> CartItem num) pre item post :
  item_id item = k -> absent k pre -> absent k post ->
  map (fun item => if item_id item =? k then f item else item) (pre ++ item :: post)
  = pre ++ f item :: post.
Proof.
  intros E Hpre Hpost. rewrite map_app. simpl.
  rewrite (map_absent f Hpre), (map_absent f Hpost).
  apply Z.eqb_eq in E. rewrite E. reflexivity.
Qed.

Lemma filter_absent k c : absent k c -> removeFromCart k c = c.
Proof.
  induction c as [|a c IH]; intro H; simpl; [reflexivity|].
  apply absent_cons in H. destruct H as [Ha Hc].
  apply Z.eqb_neq in Ha. rewrite Ha. simpl. now rewrite IH.
Qed.

Lemma find_none_absent k c :
  find (fun item => item_id item =? k) c = None <-> absent k c.
Proof.
  induction c as [|a c IH]; simpl.
  - split; [intros _ x [] | reflexivity].
  - rewrite absent_cons. destruct (item_id a =? k) eqn:E.
    + apply Z.eqb_eq in E. split; [discriminate | intros [H _]; contradiction].
    + apply Z.eqb_neq in E. rewrite IH. tauto.
Qed.

Lemma addToCart_absent (pizza : Pizza num) c :
  absent (pizza_id pizza) c -> addToCart pizza c = c ++ [new_item pizza].
Proof.
  intro H. unfold addToCart. apply find_none_absent in H. now rewrite H.
Qed.

Lemma addToCart_present (pizza : Pizza num) c :
  ~ absent (pizza_id pizza) c ->
  addToCart pizza c =
  map (fun item => if item_id item =? pizza_id pizza
                   then with_quantity item (js_add (item_quantity item) 1) else item) c.
Proof.
  intro H. unfold addToCart.
  destruct (find (fun item => item_id item =? pizza_id pizza) c) eqn:E; [reflexivity|].
  apply find_none_absent in E. contradiction.
Qed.

Lemma absent_dec k c : {absent k c} + {~ absent k c}.
Proof.
  destruct (find (fun item => item_id item =? k) c) eqn:E.
  - right. intro H. apply find_none_absent in H. congruence.
  - left. apply find_none_absent. exact E.
Qed.

Lemma nth_error_map_if (g : CartItem num -> CartItem num) c i item :
  nth_error c i = Some item -> nth_error (map g c) i = Some (g item).
Proof. intro H. rewrite nth_error_map, H. reflexivity. Qed.

End CartLemmas.

(** C4 (amended).  [handleAddToCart] is a total function of the item and
    the state (it has no failing path).  When the cart has no line for the
    item's id, the new cart is the old one followed by a line for the item
    with quantity 1.  When it has one, that line's quantity becomes the
    double sum of the quantity and 1, which is the quantity plus 1 as long
    as the quantity is below 2^53 (and not below -2^53); every other line,
    and the order, stay as they were (stated both for the single line of a
    cart without duplicates and position by position for any cart).  The
    submission error is cleared, and no other cell changes. *)
Theorem C4_add_item {num : Type} (pizza : Pizza num) (s : AppState num) :
  (absent (pizza_id pizza) (cart s) ->
   cart (handleAddToCart pizza s) =
   cart s ++ [mkCartItem (pizza_id pizza) (pizza_name pizza) (pizza_description pizza)
                         (pizza_price pizza) 1]) /\
  (forall pre item post,
     cart s = pre ++ item :: post ->
     item_id item = pizza_id pizza ->
     absent (pizza_id pizza) pre -> absent (pizza_id pizza) post ->
     cart (handleAddToCart pizza s) =
     pre ++ with_quantity item (js_add (item_quantity item) 1) :: post /\
     (- 2 ^ 53 <= item_quantity item < 2 ^ 53 ->
      cart (handleAddToCart pizza s) =
      pre ++ with_quantity item (item_quantity item + 1) :: post)) /\
  (~ absent (pizza_id pizza) (cart s) ->
   List.length (cart (handleAddToCart pizza s)) = List.length (cart s) /\
   forall i item,
     nth_error (cart s) i = Some item ->
     nth_error (cart (handleAddToCart pizza s)) i =
     Some (if item_id item =? pizza_id pizza
           then with_quantity item (js_add (item_quantity item) 1) else item) /\
     (- 2 ^ 53 <= item_quantity item < 2 ^ 53 ->
      nth_error (cart (handleAddToCart pizza s)) i =
      Some (if item_id item =? pizza_id pizza
            then with_quantity item (item_quantity item + 1) else item))) /\
  submissionError (handleAddToCart pizza s) = None /\
  handleAddToCart pizza s
  = setSubmissionError None (setCart (cart (handleAddToCart pizza s)) s).
Proof.
  assert (Small : forall q, - 2 ^ 53 <= q < 2 ^ 53 -> js_add q 1 = q + 1).
  { intros q Hq. apply js_add_exact. lia. }
  split; [|split; [|split; [|split; reflexivity]]].
  - intro H. simpl. now rewrite addToCart_absent.
  - intros pre item post E Hid Hpre Hpost.
    assert (R : cart (handleAddToCart pizza s)
                = pre ++ with_quantity item (js_add (item_quantity item) 1) :: post).
    { simpl. rewrite addToCart_present.
      + rewrite E.
        now apply map_single
          with (f := fun it => with_quantity it (js_add (item_quantity it) 1)).
      + intro H. rewrite E in H. apply absent_app in H. destruct H as [_ H].
        apply absent_cons in H. tauto. }
    split; [exact R|]. intro Hq. rewrite R, (Small _ Hq). reflexivity.
  - intro Hp. split.
    + simpl. rewrite addToCart_present by assumption. apply length_map.
    + intros i item Hi.
      assert (R : nth_error (cart (handleAddToCart pizza s)) i =
                  Some (if item_id item =? pizza_id pizza
                        then with_quantity item (js_add (item_quantity item) 1)
                        else item)).
      { simpl. rewrite addToCart_present by assumption.
        now apply nth_error_map_if
          with (g := fun item => if item_id item =? pizza_id pizza
                                 then with_quantity item (js_add (item_quantity item) 1)
                                 else item). }
      split; [exact R|]. intro Hq. rewrite R, (Small _ Hq). reflexivity.
Qed.

(** C5.  [handleUpdateQuantity] with a quantity that is zero or negative
    returns the very state [handleRemoveItem] returns.  With a positive
    quantity it gives the line of that id the new quantity, whatever its
    size, and leaves the other lines, the order and the other cells alone.
    When no line has the id it returns the state unchanged, for every
    quantity. *)
Theorem C5_set_quantity {num : Type} (itemId n : Z) (s : AppState num) :
  (n <= 0 -> handleUpdateQuantity itemId n s = handleRemoveItem itemId s) /\
  (0 < n ->
   handleUpdateQuantity itemId n s = setCart (cart (handleUpdateQuantity itemId n s)) s /\
   List.length (cart (handleUpdateQuantity itemId n s)) = List.length (cart s) /\
   (forall i item,
      nth_error (cart s) i = Some item ->
      nth_error (cart (handleUpdateQuantity itemId n s)) i =
      Some (if item_id item =? itemId then with_quantity item n else item)) /\
   (forall pre item post,
      cart s = pre ++ item :: post ->
      item_id item = itemId -> absent itemId pre -> absent itemId post ->
      cart (handleUpdateQuantity itemId n s) = pre ++ with_quantity item n :: post)) /\
  (absent itemId (cart s) -> handleUpdateQuantity itemId n s = s).
Proof.
  unfold handleUpdateQuantity. repeat split.
  - intro H. apply Z.leb_le in H. now rewrite H.
  - apply Z.leb_gt in H. rewrite H. reflexivity.
  - apply Z.leb_gt in H. rewrite H. simpl. apply length_map.
  - apply Z.leb_gt in H. rewrite H. simpl.
    intros i item Hi.
    now apply nth_error_map_if
      with (g := fun item => if item_id item =? itemId then with_quantity item n else item).
  - apply Z.leb_gt in H. rewrite H. simpl.
    intros pre item post E Hid Hpre Hpost. unfold updateInCart. rewrite E.
    now apply map_single with (f := fun it => with_quantity it n).
  - intro H. destruct s; simpl in *.
    destruct (n <=? 0); unfold handleRemoveItem, setCart; simpl.
    + now rewrite filter_absent.
    + unfold updateInCart. now rewrite map_absent.
Qed.

(** ** The cart invariant *)

Section SortedLemmas.

Context {A : Type}.

Lemma StronglySorted_agree (R R' : A -> A -> Prop) (l : list A) :
  (forall x y, In x l -> In y l -> R x y -> R' x y) ->
  StronglySorted R l -> StronglySorted R' l.
Proof.
  intros H S. induction S as [|a l S IH F].
  - constructor.
  - constructor.
    + apply IH. intros x y Hx Hy. apply H; right; assumption.
    + rewrite Forall_forall in *. intros y Hy.
      apply H; [left; reflexivity | right; exact Hy | apply F; exact Hy].
Qed.

Lemma StronglySorted_filter (R : A -> A -> Prop) (f : A -> bool) (l : list A) :
  StronglySorted R l -> StronglySorted R (filter f l).
Proof.
  intro S. induction S as [|a l S IH F]; simpl.
  - constructor.
  - destruct (f a); [|exact IH].
    constructor; [exact IH|].
    rewrite Forall_forall in *. intros y Hy.
    apply filter_In in Hy. apply F. tauto.
Qed.

Lemma StronglySorted_snoc (R : A -> A -> Prop) (l : list A) (a : A) :
  StronglySorted R l -> Forall (fun x => R x a) l -> StronglySorted R (l ++ [a]).
Proof.
  intros S. induction S as [|b l S IH F]; intro H; simpl.
  - repeat constructor.
  - inversion H as [|? ? Hb Hl]; subst.
    constructor; [apply IH; exact Hl|].
    apply Forall_app. split; [exact F|]. constructor; [exact Hb | constructor].
Qed.

End SortedLemmas.

Section Invariant.

Context {num : Type}.

Implicit Types (c : list (CartItem num)) (ops : list (CartOp num)) (op : CartOp num).



Lemma cart_apply_op (s : AppState num) op : cart (apply_op s op) = cart_op (cart s) op.
Proof.
  destruct op as [item|k n|k]; simpl; try reflexivity.
  unfold handleUpdateQuantity. destruct (n <=? 0); reflexivity.
Qed.

Lemma apply_ops_snoc (s : AppState num) ops op :
  apply_ops s (ops ++ [op]) = apply_op (apply_ops s ops) op.
Proof. unfold apply_ops. rewrite fold_left_app. reflexivity. Qed.

Lemma stamp_from_snoc x k cur ops op :
  stamp_from x k cur (ops ++ [op])
  = stamp_step x (k + List.length ops) (stamp_from x k cur ops) op.
Proof.
  revert k cur. induction ops as [|o ops IH]; intros k cur; simpl.
  - now rewrite Nat.add_0_r.
  - rewrite IH. now rewrite Nat.add_succ_r.
Qed.

Lemma created_at_snoc ops op x :
  created_at (ops ++ [op]) x = stamp_step x (List.length ops) (created_at ops x) op.
Proof. unfold created_at. now rewrite stamp_from_snoc. Qed.

Lemma absent_ids k c : absent k c <-> ~ In k (ids c).
Proof.
  unfold absent, ids. rewrite in_map_iff. split.
  - intros H (item & E & Hin). exact (H item Hin E).
  - intros H item Hin E. apply H. exists item. tauto.
Qed.

Lemma ids_map_if k (f : CartItem num -> CartItem num) c :
  (forall item, item_id (f item) = item_id item) ->
  ids (map (fun item => if item_id item =? k then f item else item) c) = ids c.
Proof.
  intro H. unfold ids. rewrite map_map. apply map_ext.
  intro item. destruct (item_id item =? k); [apply H | reflexivity].
Qed.

Lemma ids_remove k c :
  ids (removeFromCart k c) = filter (fun x => negb (x =? k)) (ids c).
Proof.
  induction c as [|a c IH]; simpl; [reflexivity|].
  destruct (item_id a =? k); simpl; now rewrite IH.
Qed.


Lemma cart_inv_nil : @cart_inv num [] [].
Proof.
  unfold cart_inv, created_at; simpl. repeat split.
  - constructor.
  - constructor.
  - intros [].
  - intro H. congruence.
  - intros x a H. discriminate.
  - constructor.
Qed.

End Invariant.

Section InvariantSteps.

Context {num : Type}.

Implicit Types (c : list (CartItem num)) (ops : list (CartOp num)) (op : CartOp num).

Lemma created_before_ext ops ops' x y :
  created_at ops' x = created_at ops x ->
  created_at ops' y = created_at ops y ->
  created_before ops x y -> created_before ops' x y.
Proof. unfold created_before. intros -> ->. exact (fun H => H). Qed.

(** An operation that keeps the ids and the stamps. *)
Lemma cart_inv_keep ops op c c' :
  cart_inv ops c ->
  ids c' = ids c ->
  (forall x, created_at (ops ++ [op]) x = created_at ops x) ->
  Forall (fun item => 1 <= item_quantity item) c' ->
  cart_inv (ops ++ [op]) c'.
Proof.
  intros (Hnd & _ & Hin & Hlt & Hs) Hids Hst Hq.
  unfold cart_inv. rewrite Hids. repeat split; try assumption.
  - intro H. rewrite Hst. now apply Hin.
  - intro H. rewrite Hst in H. now apply Hin.
  - intros x a H. rewrite Hst in H. apply Hlt in H.
    rewrite length_app. simpl. lia.
  - apply StronglySorted_agree with (R := created_before ops); [|exact Hs].
    intros x y _ _. apply created_before_ext; apply Hst.
Qed.

(** An operation that destroys the line of [k]. *)
Lemma cart_inv_remove ops op k c :
  cart_inv ops c ->
  (forall x, created_at (ops ++ [op]) x = if k =? x then None else created_at ops x) ->
  cart_inv (ops ++ [op]) (removeFromCart k c).
Proof.
  intros (Hnd & Hq & Hin & Hlt & Hs) Hst.
  assert (Hmem : forall x, In x (ids (removeFromCart k c)) <-> In x (ids c) /\ x <> k).
  { intro x. rewrite ids_remove, filter_In, negb_true_iff, Z.eqb_neq. reflexivity. }
  assert (Hother : forall x, x <> k -> created_at (ops ++ [op]) x = created_at ops x).
  { intros x Hx. rewrite Hst.
    destruct (k =? x) eqn:E; [apply Z.eqb_eq in E; congruence | reflexivity]. }
  unfold cart_inv. repeat split.
  - rewrite ids_remove. now apply NoDup_filter.
  - unfold removeFromCart. rewrite Forall_forall in *. intros item Hi.
    apply filter_In in Hi. apply Hq. tauto.
  - intro H. apply Hmem in H. destruct H as [H Hk].
    rewrite Hother by assumption. now apply Hin.
  - intro H. apply Hmem. rewrite Hst in H.
    destruct (k =? x) eqn:E; [congruence|].
    apply Z.eqb_neq in E. split; [now apply Hin | congruence].
  - intros x a H. rewrite Hst in H. destruct (k =? x); [discriminate|].
    apply Hlt in H. rewrite length_app. simpl. lia.
  - rewrite ids_remove.
    apply StronglySorted_agree with (R := created_before ops);
      [|apply StronglySorted_filter; exact Hs].
    intros x y Hx Hy.
    apply filter_In in Hx, Hy.
    rewrite negb_true_iff, Z.eqb_neq in Hx, Hy.
    apply created_before_ext; apply Hother; tauto.
Qed.

(** An [AddItem] that creates a line. *)
Lemma cart_inv_append ops op k c (item : CartItem num) :
  cart_inv ops c ->
  absent k c -> item_id item = k -> 1 <= item_quantity item ->
  (forall x, created_at (ops ++ [op]) x
             = if k =? x then Some (List.length ops) else created_at ops x) ->
  cart_inv (ops ++ [op]) (c ++ [item]).
Proof.
  intros (Hnd & Hq & Hin & Hlt & Hs) Habs Hid Hqi Hst.
  apply absent_ids in Habs.
  assert (Hids : ids (c ++ [item]) = ids c ++ [k]).
  { unfold ids. rewrite map_app. simpl. now rewrite Hid. }
  assert (Hother : forall x, In x (ids c) -> created_at (ops ++ [op]) x = created_at ops x).
  { intros x Hx. rewrite Hst.
    destruct (k =? x) eqn:E; [apply Z.eqb_eq in E; congruence | reflexivity]. }
  assert (Hk : created_at (ops ++ [op]) k = Some (List.length ops)).
  { rewrite Hst, Z.eqb_refl. reflexivity. }
  unfold cart_inv. rewrite Hids. repeat split.
  - apply NoDup_app_remove_l with (l := []). simpl.
    apply NoDup_app; [exact Hnd | repeat constructor; intros [] |].
    intros x Hx [<-|[]]. contradiction.
  - apply Forall_app. split; [exact Hq | repeat constructor; exact Hqi].
  - intro H. apply in_app_or in H. destruct H as [H|[<-|[]]].
    + rewrite (Hother x H). now apply Hin.
    + congruence.
  - intro H. apply in_or_app. rewrite Hst in H.
    destruct (k =? x) eqn:E.
    + apply Z.eqb_eq in E. right. left. exact E.
    + left. now apply Hin.
  - intros x a H. rewrite length_app. simpl. rewrite Hst in H.
    destruct (k =? x); [injection H as <-; lia | apply Hlt in H; lia].
  - apply StronglySorted_snoc.
    + apply StronglySorted_agree with (R := created_before ops); [|exact Hs].
      intros x y Hx Hy. apply created_before_ext; apply Hother; assumption.
    + rewrite Forall_forall. intros x Hx. unfold created_before.
      rewrite Hk, (Hother x Hx).
      destruct (created_at ops x) as [a|] eqn:E.
      * now apply Hlt in E.
      * apply Hin in Hx. contradiction.
Qed.

Lemma Forall_quantity_map_if k (f : CartItem num -> CartItem num) c :
  Forall (fun item => 1 <= item_quantity item) c ->
  (forall item, 1 <= item_quantity item -> 1 <= item_quantity (f item)) ->
  Forall (fun item => 1 <= item_quantity item)
         (map (fun item => if item_id item =? k then f item else item) c).
Proof.
  intros Hq Hf. rewrite Forall_forall in *. intros y Hy.
  apply in_map_iff in Hy. destruct Hy as (item & <- & Hi).
  destruct (item_id item =? k); auto.
Qed.

(** Every operation preserves the invariant. *)
Lemma cart_inv_step ops op c :
  cart_inv ops c -> cart_inv (ops ++ [op]) (cart_op c op).
Proof.
  intro I. pose proof I as (Hnd & Hq & Hin & Hlt & Hs).
  destruct op as [pizza|k n|k]; simpl.
  - destruct (absent_dec (pizza_id pizza) c) as [Ha|Hp].
    + rewrite addToCart_absent by assumption.
      apply cart_inv_append with (k := pizza_id pizza);
        [assumption | assumption | reflexivity | simpl; lia |].
      intro x. rewrite created_at_snoc. simpl.
      destruct (pizza_id pizza =? x) eqn:E; [|reflexivity].
      apply Z.eqb_eq in E. subst x.
      destruct (created_at ops (pizza_id pizza)) eqn:C; [|reflexivity].
      exfalso. apply absent_ids in Ha. apply Ha, Hin. congruence.
    + rewrite addToCart_present by assumption.
      apply cart_inv_keep with (c := c); [assumption | | |].
      * now apply ids_map_if.
      * intro x. rewrite created_at_snoc. simpl.
        destruct (pizza_id pizza =? x) eqn:E; [|reflexivity].
        destruct (created_at ops x) eqn:C; [reflexivity|].
        exfalso. apply Hp, absent_ids. apply Z.eqb_eq in E. subst x.
        intro H. apply Hin in H. contradiction.
      * apply Forall_quantity_map_if; [assumption|]. intros item H. simpl.
        apply round_double_positive. lia.
  - destruct (n <=? 0) eqn:E.
    + apply cart_inv_remove; [assumption|].
      intro x. rewrite created_at_snoc. simpl. now rewrite E, andb_true_r.
    + apply cart_inv_keep with (c := c); [assumption | | |].
      * now apply ids_map_if.
      * intro x. rewrite created_at_snoc. simpl. now rewrite E, andb_false_r.
      * apply Z.leb_gt in E.
        apply Forall_quantity_map_if; [assumption|]. intros item H. simpl. lia.
  - apply cart_inv_remove; [assumption|].
    intro x. rewrite created_at_snoc. reflexivity.
Qed.

Lemma cart_inv_apply_ops (s : AppState num) ops :
  cart s = [] -> cart_inv ops (cart (apply_ops s ops)).
Proof.
  intro E. induction ops as [|op ops IH] using rev_ind.
  - simpl. rewrite E. apply cart_inv_nil.
  - rewrite apply_ops_snoc, cart_apply_op. now apply cart_inv_step.
Qed.

(** Adding distinct items to an empty cart lists them in the order given. *)
Lemma add_distinct_ids (s : AppState num) (added : list (Pizza num)) :
  cart s = [] ->
  NoDup (map (@pizza_id num) added) ->
  ids (cart (apply_ops s (map (@AddItem num) added))) = map (@pizza_id num) added.
Proof.
  intros E. induction added as [|pizza added IH] using rev_ind; intro ND.
  - simpl. now rewrite E.
  - rewrite map_app in ND. simpl in ND.
    apply NoDup_remove in ND. rewrite app_nil_r in ND. destruct ND as [ND Hnew].
    rewrite !map_app. simpl. rewrite apply_ops_snoc, cart_apply_op. simpl.
    rewrite addToCart_absent.
    + unfold ids in *. rewrite map_app. simpl. now rewrite IH.
    + apply absent_ids. now rewrite IH.
Qed.

End InvariantSteps.

(** C7.  After any sequence of [AddItem], [SetQuantity] and [RemoveItem]
    from a state whose cart is empty: no two lines of the cart share an id;
    the lines stand in the order in which they were created, each by the
    [AddItem] that first found no line for its id (an item removed and added
    again is a new line, created by the later [AddItem]); and every quantity
    is an integer that is at least 1.  In particular, when the sequence adds
    distinct items and does nothing else, the cart lists exactly those items
    in the order they were added. *)
Theorem C7_cart_invariant {num : Type} (s : AppState num) (ops : list (CartOp num)) :
  cart s = [] ->
  NoDup (map (@item_id num) (cart (apply_ops s ops))) /\
  StronglySorted (created_before ops) (map (@item_id num) (cart (apply_ops s ops))) /\
  Forall (fun item => 1 <= item_quantity item) (cart (apply_ops s ops)) /\
  (forall added,
     ops = map (@AddItem num) added -> NoDup (map (@pizza_id num) added) ->
     map (@item_id num) (cart (apply_ops s ops)) = map (@pizza_id num) added).
Proof.
  intro E. destruct (cart_inv_apply_ops s ops E) as (Hnd & Hq & _ & _ & Hs).
  split; [exact Hnd|]. split; [exact Hs|]. split; [exact Hq|].
  intros added -> ND. now apply add_distinct_ids.
Qed.

Section SessionInvariant.

Context {num : Type} {JN : JsNumber num}.



Lemma mount_ok : session_ok (fst (mount num)).
Proof. unfold session_ok; simpl. repeat split; congruence. Qed.

Lemma nth_error_nonempty {A : Type} (l : list A) i a : nth_error l i = Some a -> l <> [].
Proof. destruct l; [destruct i; discriminate | discriminate]. Qed.


(** Changing the cart, and possibly clearing the error, on the main screen
    once the menu has settled. *)
Lemma cart_change_ok (sess : Session num) (c' : list (CartItem num)) (clear : bool) :
  session_ok sess ->
  orderConfirmation (app sess) = None ->
  isPizzaLoading (app sess) = false ->
  session_ok (with_app sess
                (if clear then setSubmissionError None (setCart c' (app sess))
                 else setCart c' (app sess))).
Proof.
  destruct sess as [[pz c ipl pe isub se oc] fp sp].
  unfold session_ok; simpl. intros (H1 & H2 & H3 & H4 & H5 & H6) -> ->.
  destruct clear; simpl; repeat split; try congruence; tauto.
Qed.

Lemma handleUpdateQuantity_setCart (k n : Z) (s : AppState num) :
  handleUpdateQuantity k n s = setCart (cart (handleUpdateQuantity k n s)) s.
Proof. unfold handleUpdateQuantity, handleRemoveItem. destruct (n <=? 0); reflexivity. Qed.

Lemma main_screen_true (s : AppState num) :
  main_screen s = true <-> orderConfirmation s = None.
Proof. unfold main_screen. destruct (orderConfirmation s); split; congruence. Qed.

Lemma row_means_loaded (sess : Session num) i item :
  session_ok sess -> nth_error (cart (app sess)) i = Some item ->
  isPizzaLoading (app sess) = false.
Proof.
  intros (_ & _ & _ & _ & H5 & _) N. apply nth_error_nonempty in N.
  destruct (isPizzaLoading (app sess)); [|reflexivity].
  destruct H5 as (E & _); [reflexivity | contradiction].
Qed.

Ltac loading_absurd H :=
  match goal with
  | L : _ = true |- _ =>
      destruct (H L) as (? & ? & ? & ? & ?); first [contradiction | congruence]
  end.

Lemma step_ok (sess sess' : Session num) ev calls :
  session_ok sess -> step sess ev = Some (sess', calls) -> session_ok sess'.
Proof.
  intros I E.
  destruct ev as [data|error|i|i|i|i|nm ad|response|error|]; unfold step in E.
  - destruct sess as [[pz c ipl pe isub se oc] fp sp].
    destruct I as (H1 & H2 & H3 & H4 & H5 & H6); simpl in *.
    destruct fp; [|discriminate]. injection E as <- <-.
    subst ipl. destruct H5 as (-> & -> & -> & -> & ->); [reflexivity|].
    unfold session_ok; simpl. repeat split; try congruence; tauto.
  - destruct sess as [[pz c ipl pe isub se oc] fp sp].
    destruct I as (H1 & H2 & H3 & H4 & H5 & H6); simpl in *.
    destruct fp; [|discriminate]. injection E as <- <-.
    subst ipl. destruct H5 as (-> & -> & -> & -> & ->); [reflexivity|].
    unfold session_ok; simpl. repeat split; try congruence; tauto.
  - destruct (main_screen (app sess)) eqn:M; [|discriminate].
    unfold menu_listed in E.
    destruct (isPizzaLoading (app sess)) eqn:L; [discriminate|].
    destruct (negb (truthy (pizzaError (app sess)))); [|discriminate].
    simpl in E. destruct (nth_error (pizzas (app sess)) i); [|discriminate].
    injection E as <- <-. apply main_screen_true in M.
    exact (cart_change_ok _ true I M L).
  - destruct (main_screen (app sess)) eqn:M; [|discriminate].
    destruct (nth_error (cart (app sess)) i) eqn:N; [|discriminate].
    destruct (item_quantity c <=? 1); [discriminate|]. injection E as <- <-.
    rewrite handleUpdateQuantity_setCart. apply main_screen_true in M.
    exact (cart_change_ok _ false I M (row_means_loaded _ I N)).
  - destruct (main_screen (app sess)) eqn:M; [|discriminate].
    destruct (nth_error (cart (app sess)) i) eqn:N; [|discriminate].
    injection E as <- <-.
    rewrite handleUpdateQuantity_setCart. apply main_screen_true in M.
    exact (cart_change_ok _ false I M (row_means_loaded _ I N)).
  - destruct (main_screen (app sess)) eqn:M; [|discriminate].
    destruct (nth_error (cart (app sess)) i) eqn:N; [|discriminate].
    injection E as <- <-. apply main_screen_true in M.
    exact (cart_change_ok _ false I M (row_means_loaded _ I N)).
  - destruct (main_screen (app sess)) eqn:M; [|discriminate].
    destruct (canSubmit (cart (app sess)) nm ad (isSubmitting (app sess))) eqn:C.
    + rewrite (submit_accepted _ _ _ C) in E. injection E as <- <-.
      apply canSubmit_true in C. destruct C as (Hc & _ & _ & Hs).
      destruct sess as [[pz c ipl pe isub se oc] fp sp].
      destruct I as (H1 & H2 & H3 & H4 & H5 & H6); simpl in *.
      unfold session_ok; simpl. repeat split; try congruence.
      all: try tauto; loading_absurd H5.
    + unfold OrderForm_handleSubmit in E. rewrite C in E. injection E as <- <-.
      now rewrite with_app_same.
  - destruct sess as [[pz c ipl pe isub se oc] fp sp].
    destruct I as (H1 & H2 & H3 & H4 & H5 & H6); simpl in *.
    destruct sp; [|discriminate]. injection E as <- <-. simpl in H2. subst isub.
    destruct H3 as (-> & ->); [reflexivity|].
    unfold session_ok; simpl. repeat split; try congruence.
    all: try tauto; loading_absurd H5.
  - destruct sess as [[pz c ipl pe isub se oc] fp sp].
    destruct I as (H1 & H2 & H3 & H4 & H5 & H6); simpl in *.
    destruct sp; [|discriminate]. injection E as <- <-. simpl in H2. subst isub.
    destruct H3 as (-> & ->); [reflexivity|].
    unfold session_ok; simpl. repeat split; try congruence.
    all: try tauto; loading_absurd H5.
  - destruct (main_screen (app sess)) eqn:M; [discriminate|].
    injection E as <- <-.
    destruct sess as [[pz c ipl pe isub se oc] fp sp].
    destruct I as (H1 & H2 & H3 & H4 & H5 & H6); simpl in *.
    unfold main_screen in M; simpl in M. destruct oc; [|discriminate].
    destruct H4 as (-> & ->); [congruence|].
    unfold session_ok; simpl. repeat split; try congruence; try tauto.
    all: try tauto; loading_absurd H5.
Qed.

Lemma reachable_ok (sess : Session num) : reachable sess -> session_ok sess.
Proof.
  intro R. induction R as [|sess ev sess' calls R IH E].
  - apply mount_ok.
  - exact (step_ok _ IH E).
Qed.

Lemma run_reachable (sess sess' : Session num) evs calls :
  reachable sess -> run sess evs = Some (sess', calls) -> reachable sess'.
Proof.
  revert sess calls. induction evs as [|ev evs IH]; intros sess calls R E; simpl in E.
  - injection E as <- <-. exact R.
  - destruct (step sess ev) as [[s1 c1]|] eqn:S; [|discriminate].
    destruct (run s1 evs) as [[s2 c2]|] eqn:S2; [|discriminate].
    injection E as <- <-.
    eapply IH; [|exact S2]. eapply reachable_step; eassumption.
Qed.

End SessionInvariant.

(** ** Submissions in flight *)

Section InFlight.

Context {num : Type} {JN : JsNumber num}.



(** While a submission is pending, every event other than its settlement
    leaves it pending and issues no call; only the cart clicks touch the
    cart. *)
Lemma step_in_flight (sess sess' : Session num) ev calls kept :
  session_ok sess ->
  submitPending sess = Some kept ->
  is_settlement ev = false ->
  step sess ev = Some (sess', calls) ->
  submitPending sess' = Some kept /\ calls = [] /\
  (is_cart_event ev = false -> cart (app sess') = cart (app sess)).
Proof.
  intros I P NS E.
  destruct ev as [data|error|i|i|i|i|nm ad|response|error|];
    try discriminate NS; unfold step in E.
  - destruct (fetchPending sess); [|discriminate]. injection E as <- <-. auto.
  - destruct (fetchPending sess); [|discriminate]. injection E as <- <-. auto.
  - destruct (main_screen (app sess) && menu_listed (app sess)); [|discriminate].
    destruct (nth_error (pizzas (app sess)) i); [|discriminate].
    injection E as <- <-. repeat split; [assumption | discriminate].
  - destruct (main_screen (app sess)); [|discriminate].
    destruct (nth_error (cart (app sess)) i); [|discriminate].
    destruct (item_quantity c <=? 1); [discriminate|].
    injection E as <- <-. repeat split; [assumption | discriminate].
  - destruct (main_screen (app sess)); [|discriminate].
    destruct (nth_error (cart (app sess)) i); [|discriminate].
    injection E as <- <-. repeat split; [assumption | discriminate].
  - destruct (main_screen (app sess)); [|discriminate].
    destruct (nth_error (cart (app sess)) i); [|discriminate].
    injection E as <- <-. repeat split; [assumption | discriminate].
  - destruct (main_screen (app sess)); [|discriminate].
    assert (C : canSubmit (cart (app sess)) nm ad (isSubmitting (app sess)) = false).
    { apply canSubmit_false. do 3 right.
      destruct I as (_ & -> & _). rewrite P. reflexivity. }
    unfold OrderForm_handleSubmit in E. rewrite C in E. injection E as <- <-.
    rewrite with_app_same. auto.
  - destruct (main_screen (app sess)); [discriminate|].
    injection E as <- <-. auto.
Qed.

Lemma run_in_flight (sess sess' : Session num) evs calls kept :
  session_ok sess ->
  submitPending sess = Some kept ->
  no_settlement evs = true ->
  run sess evs = Some (sess', calls) ->
  session_ok sess' /\ submitPending sess' = Some kept /\ calls = [] /\
  (no_cart_event evs = true -> cart (app sess') = cart (app sess)).
Proof.
  revert sess calls. induction evs as [|ev evs IH]; intros sess calls I P NS E; simpl in *.
  - injection E as <- <-. auto.
  - apply andb_true_iff in NS. destruct NS as [NS1 NS2].
    apply negb_true_iff in NS1.
    destruct (step sess ev) as [[s1 c1]|] eqn:S; [|discriminate].
    destruct (run s1 evs) as [[s2 c2]|] eqn:S2; [|discriminate].
    injection E as <- <-.
    destruct (step_in_flight _ I P NS1 S) as (P1 & -> & K1).
    destruct (IH s1 c2 (step_ok _ I S) P1 NS2 S2) as (I2 & P2 & -> & K2).
    split; [assumption|]. split; [assumption|]. split; [reflexivity|].
    intro NC. apply andb_true_iff in NC. destruct NC as [NC1 NC2].
    apply negb_true_iff in NC1. rewrite (K2 NC2). exact (K1 NC1).
Qed.

End InFlight.

(** An accepted submission suspends with the total of its payload and leaves
    the cart alone. *)
Lemma submit_step_pending {num : Type} {JN : JsNumber num}
      (sess0 sess1 : Session num) (name addr : jsstring) (payload : OrderPayload num) :
  step sess0 (EvSubmitForm name addr) = Some (sess1, [CallSubmitOrder payload]) ->
  submitPending sess1 = Some (total payload) /\ cart (app sess1) = cart (app sess0).
Proof.
  intro S. unfold step in S. destruct (main_screen (app sess0)); [|discriminate].
  destruct (OrderForm_handleSubmit name addr (app sess0)) as [s' [k|]] eqn:E;
    [|discriminate].
  unfold OrderForm_handleSubmit in E.
  destruct (canSubmit _ _ _ _); [|discriminate].
  unfold handleOrderSubmit in E.
  destruct (_ || _); [discriminate|].
  injection E as <- <-. injection S as <- <-. split; reflexivity.
Qed.

(** C3.  Take any reachable session in which the form is submitted and
    accepted, let any events follow while the call is in flight, and let the
    call then resolve.  The resolution is one step that issues no call and
    ends with: the confirmation holding the [orderId] and [timestamp] of the
    response and the total that was sent in the payload; the cart empty; no
    submission error; nothing submitting any more. *)
Theorem C3_submit_success {num : Type} {JN : JsNumber num}
        (sess0 sess1 sess2 : Session num) (name addr : jsstring)
        (payload : OrderPayload num) (evs : list (Event num))
        (calls : list (ServiceCall num)) (response : Response) :
  reachable sess0 ->
  step sess0 (EvSubmitForm name addr) = Some (sess1, [CallSubmitOrder payload]) ->
  no_settlement evs = true ->
  run sess1 evs = Some (sess2, calls) ->
  exists sess3,
    step sess2 (EvSubmitResolved response) = Some (sess3, []) /\
    orderConfirmation (app sess3)
    = Some (mkConfirmation (resp_orderId response) (resp_timestamp response) (total payload)) /\
    cart (app sess3) = [] /\
    submissionError (app sess3) = None /\
    isSubmitting (app sess3) = false /\
    submitPending sess3 = None.
Proof.
  intros R S NS Rn.
  pose proof (reachable_ok R) as I0.
  pose proof (step_ok _ I0 S) as I1.
  destruct (submit_step_pending _ _ _ S) as (P1 & _).
  destruct (run_in_flight evs I1 P1 NS Rn) as (I2 & P2 & _ & _).
  eexists. unfold step. rewrite P2. split; [reflexivity|]. simpl.
  repeat split.
  destruct I2 as (_ & Hs & He & _). rewrite P2 in Hs. apply He. exact Hs.
Qed.


(** C2 (amended).  Take any reachable session in which the form is submitted
    and accepted, let any events follow while the call is in flight, and let
    the call then fail.  The failure is one step that issues no call and ends
    idle, with a submission error that is the text "Order submission failed: "
    followed by the failure's message, or by "Unknown Server Error" when the
    message is missing or empty, hence never empty; the confirmation stays
    unset.  The failure itself leaves the cart exactly as it stood just
    before it; that is the cart of the moment of submission whenever no cart
    click happened during the flight. *)
Theorem C2_submit_failure {num : Type} {JN : JsNumber num}
        (sess0 sess1 sess2 : Session num) (name addr : jsstring)
        (payload : OrderPayload num) (evs : list (Event num))
        (calls : list (ServiceCall num)) (error : JsError) :
  reachable sess0 ->
  step sess0 (EvSubmitForm name addr) = Some (sess1, [CallSubmitOrder payload]) ->
  no_settlement evs = true ->
  run sess1 evs = Some (sess2, calls) ->
  exists sess3,
    step sess2 (EvSubmitRejected error) = Some (sess3, []) /\
    isSubmitting (app sess3) = false /\
    submitPending sess3 = None /\
    submissionError (app sess3)
    = Some (js "Order submission failed: "
            ++ or_else (err_message error) (js "Unknown Server Error")) /\
    (forall c r, err_message error = Some (c :: r) ->
                 submissionError (app sess3)
                 = Some (js "Order submission failed: " ++ c :: r)) /\
    (err_message error = None \/ err_message error = Some [] ->
     submissionError (app sess3)
     = Some (js "Order submission failed: Unknown Server Error")) /\
    (exists c r, submissionError (app sess3) = Some (c :: r)) /\
    orderConfirmation (app sess3) = None /\
    cart (app sess3) = cart (app sess2) /\
    (no_cart_event evs = true -> cart (app sess3) = cart (app sess0)).
Proof.
  intros R S NS Rn.
  pose proof (reachable_ok R) as I0.
  pose proof (step_ok _ I0 S) as I1.
  destruct (submit_step_pending _ _ _ S) as (P1 & C1).
  destruct (run_in_flight evs I1 P1 NS Rn) as (I2 & P2 & _ & K).
  eexists. unfold step. rewrite P2. split; [reflexivity|]. simpl.
  split; [reflexivity|]. split; [reflexivity|]. split; [reflexivity|].
  split; [intros c r ->; reflexivity|].
  split; [intros [-> | ->]; reflexivity|].
  split; [do 2 eexists; reflexivity|].
  split.
  { destruct I2 as (_ & Hs & He & _). rewrite P2 in Hs. apply He. exact Hs. }
  split; [reflexivity|].
  intro NC. rewrite (K NC). exact C1.
Qed.

(** C8.  In a reachable session that shows the confirmation, the only event
    the page offers is the button that starts a new order (nothing else is
    rendered and no promise is pending).  That step issues no call and ends
    idle: nothing submitting, the cart empty, no submission error, no
    confirmation.  The cart is the empty one left by the success, not the
    one that was submitted. *)
Theorem C8_place_another_order {num : Type} {JN : JsNumber num}
        (sess : Session num) (conf : Confirmation num) :
  reachable sess ->
  orderConfirmation (app sess) = Some conf ->
  (forall ev sess' calls, step sess ev = Some (sess', calls) -> ev = EvPlaceAnother) /\
  exists sess',
    step sess EvPlaceAnother = Some (sess', []) /\
    isSubmitting (app sess') = false /\
    submitPending sess' = None /\
    cart (app sess') = [] /\
    submissionError (app sess') = None /\
    orderConfirmation (app sess') = None.
Proof.
  intros R C. pose proof (reachable_ok R) as (H1 & H2 & H3 & H4 & H5 & H6).
  assert (M : main_screen (app sess) = false) by (unfold main_screen; now rewrite C).
  assert (Hs : isSubmitting (app sess) = false).
  { destruct (isSubmitting (app sess)); [|reflexivity].
    destruct H3 as (_ & ?); [reflexivity | congruence]. }
  assert (Hl : isPizzaLoading (app sess) = false).
  { destruct (isPizzaLoading (app sess)); [|reflexivity].
    destruct H5 as (_ & _ & ? & _); [reflexivity | congruence]. }
  assert (Hp : submitPending sess = None).
  { rewrite Hs in H2. destruct (submitPending sess); [discriminate | reflexivity]. }
  destruct H4 as (Hc & He); [congruence|].
  split.
  - intros ev sess' calls E.
    destruct ev as [data|error|i|i|i|i|nm ad|response|error|]; unfold step in E;
      rewrite ?M, ?H1, ?Hl, ?Hp in E; simpl in E; try discriminate E.
    reflexivity.
  - eexists. unfold step. rewrite M. split; [reflexivity|]. simpl.
    repeat split; assumption.
Qed.

(** C9.  Mounting issues the one call to [fetchPizzas] and starts in the
    loading state.  No step of the page issues another: over any run the
    calls to [fetchPizzas] number exactly one.  The pending fetch settles
    either into the loaded state (the items received, no error) or into the
    failed state (the error text, no items); and once the loading flag is
    down no step changes the flag, the items or the error, and no fetch is
    pending. *)
Theorem C9_menu_loaded_once {num : Type} {JN : JsNumber num} :
  (snd (mount num) = [CallFetchPizzas] /\
   isPizzaLoading (app (fst (mount num))) = true /\
   fetchPending (fst (mount num)) = true) /\
  (forall (sess sess' : Session num) ev calls,
     step sess ev = Some (sess', calls) -> filter (@is_fetch_call num) calls = []) /\
  (forall (evs : list (Event num)) sess calls,
     run (fst (mount num)) evs = Some (sess, calls) ->
     List.length (filter (@is_fetch_call num) (snd (mount num) ++ calls)) = 1%nat) /\
  (forall (sess sess' : Session num) data calls,
     reachable sess -> step sess (EvFetchResolved data) = Some (sess', calls) ->
     isPizzaLoading (app sess) = true /\
     isPizzaLoading (app sess') = false /\ fetchPending sess' = false /\
     pizzas (app sess') = data /\ pizzaError (app sess') = None) /\
  (forall (sess sess' : Session num) error calls,
     reachable sess -> step sess (EvFetchRejected error) = Some (sess', calls) ->
     isPizzaLoading (app sess) = true /\
     isPizzaLoading (app sess') = false /\ fetchPending sess' = false /\
     pizzas (app sess') = [] /\
     pizzaError (app sess')
     = Some (js "Failed to load pizza menu. Please try again later.")) /\
  (forall (sess sess' : Session num) ev calls,
     reachable sess -> isPizzaLoading (app sess) = false ->
     step sess ev = Some (sess', calls) ->
     isPizzaLoading (app sess') = false /\ fetchPending sess' = false /\
     pizzas (app sess') = pizzas (app sess) /\
     pizzaError (app sess') = pizzaError (app sess)).
Proof.
  assert (NoFetch : forall (sess sess' : Session num) ev calls,
             step sess ev = Some (sess', calls) -> filter (@is_fetch_call num) calls = []).
  { intros sess sess' ev calls E.
    destruct ev as [data|error|i|i|i|i|nm ad|response|error|]; unfold step in E.
    - destruct (fetchPending sess); [|discriminate]. now injection E as <- <-.
    - destruct (fetchPending sess); [|discriminate]. now injection E as <- <-.
    - destruct (_ && _); [|discriminate].
      destruct (nth_error _ _); [|discriminate]. now injection E as <- <-.
    - destruct (main_screen _); [|discriminate].
      destruct (nth_error _ _); [|discriminate].
      destruct (_ <=? 1); [discriminate|]. now injection E as <- <-.
    - destruct (main_screen _); [|discriminate].
      destruct (nth_error _ _); [|discriminate]. now injection E as <- <-.
    - destruct (main_screen _); [|discriminate].
      destruct (nth_error _ _); [|discriminate]. now injection E as <- <-.
    - destruct (main_screen _); [|discriminate].
      destruct (OrderForm_handleSubmit _ _ _) as [s' [k|]]; now injection E as <- <-.
    - destruct (submitPending sess); [|discriminate]. now injection E as <- <-.
    - destruct (submitPending sess); [|discriminate]. now injection E as <- <-.
    - destruct (main_screen _); [discriminate|]. now injection E as <- <-. }
  split; [repeat split|]. split; [exact NoFetch|]. split; [|split; [|split]].
  - intros evs sess calls E. simpl.
    enough (H : forall (s0 : Session num), run s0 evs = Some (sess, calls) ->
                filter (@is_fetch_call num) calls = []) by (now rewrite (H _ E)).
    clear E. revert calls. induction evs as [|ev evs IH]; intros calls s0 E; simpl in E.
    + now injection E as <- <-.
    + destruct (step s0 ev) as [[s1 c1]|] eqn:S; [|discriminate].
      destruct (run s1 evs) as [[s2 c2]|] eqn:S2; [|discriminate].
      injection E as <- <-. rewrite filter_app, (NoFetch _ _ _ _ S), (IH _ _ S2).
      reflexivity.
  - intros sess sess' data calls R E.
    pose proof (reachable_ok R) as (H1 & _ & _ & _ & H5 & _).
    unfold step in E. destruct (fetchPending sess) eqn:F; [|discriminate].
    injection E as <- <-. simpl. rewrite <- H1.
    destruct H5 as (_ & _ & _ & -> & _); [congruence|]. repeat split.
  - intros sess sess' error calls R E.
    pose proof (reachable_ok R) as (H1 & _ & _ & _ & H5 & _).
    unfold step in E. destruct (fetchPending sess) eqn:F; [|discriminate].
    injection E as <- <-. simpl. rewrite <- H1.
    destruct H5 as (_ & _ & _ & _ & ->); [congruence|]. repeat split.
  - intros sess sess' ev calls R L E.
    pose proof (reachable_ok R) as (H1 & _).
    rewrite L in H1.
    destruct ev as [data|error|i|i|i|i|nm ad|response|error|]; unfold step in E;
      rewrite ?H1 in E; try discriminate E.
    + destruct (_ && _); [|discriminate].
      destruct (nth_error _ _); [|discriminate]. injection E as <- <-. simpl. auto.
    + destruct (main_screen _); [|discriminate].
      destruct (nth_error _ _); [|discriminate].
      destruct (_ <=? 1); [discriminate|]. injection E as <- <-.
      rewrite handleUpdateQuantity_setCart. simpl. auto.
    + destruct (main_screen _); [|discriminate].
      destruct (nth_error _ _); [|discriminate]. injection E as <- <-.
      rewrite handleUpdateQuantity_setCart. simpl. auto.
    + destruct (main_screen _); [|discriminate].
      destruct (nth_error _ _); [|discriminate]. injection E as <- <-. simpl. auto.
    + destruct (main_screen _); [|discriminate].
      unfold OrderForm_handleSubmit, handleOrderSubmit in E.
      destruct (canSubmit _ _ _ _); [destruct (_ || _)|];
        injection E as <- <-; simpl; auto.
    + destruct (submitPending sess); [|discriminate]. injection E as <- <-. simpl. auto.
    + destruct (submitPending sess); [|discriminate]. injection E as <- <-. simpl. auto.
    + destruct (main_screen _); [discriminate|]. injection E as <- <-. simpl. auto.
Qed.

(** C10.  While a submission is in flight the page still offers every cart
    control: each pizza card adds, each cart row can be raised, removed and,
    above quantity 1, lowered, with the same handlers as at any other time.
    Whatever events happen before the call resolves, the resolution empties
    the cart: lines added or changed during the flight go as well. *)
Theorem C10_mutations_in_flight {num : Type} {JN : JsNumber num}
        (sess : Session num) (kept : num) :
  reachable sess ->
  submitPending sess = Some kept ->
  (forall i pizza,
     nth_error (pizzas (app sess)) i = Some pizza ->
     step sess (EvClickAdd i)
     = Some (with_app sess (handleAddToCart pizza (app sess)), [])) /\
  (forall i item,
     nth_error (cart (app sess)) i = Some item ->
     step sess (EvClickPlus i)
     = Some (with_app sess
               (handleUpdateQuantity (item_id item) (js_add (item_quantity item) 1)
                                     (app sess)), [])
     /\
     step sess (EvClickRemove i)
     = Some (with_app sess (handleRemoveItem (item_id item) (app sess)), [])
     /\
     (1 < item_quantity item ->
      step sess (EvClickMinus i)
      = Some (with_app sess
                (handleUpdateQuantity (item_id item) (js_sub (item_quantity item) 1)
                                      (app sess)),
              []))) /\
  (forall evs sess' calls response,
     no_settlement evs = true ->
     run sess evs = Some (sess', calls) ->
     exists sess'',
       step sess' (EvSubmitResolved response) = Some (sess'', []) /\
       cart (app sess'') = [] /\
       orderConfirmation (app sess'')
       = Some (mkConfirmation (resp_orderId response) (resp_timestamp response) kept)).
Proof.
  intros R P. pose proof (reachable_ok R) as I.
  pose proof I as (H1 & H2 & H3 & H4 & H5 & H6).
  assert (Hs : isSubmitting (app sess) = true) by (rewrite H2, P; reflexivity).
  destruct (H3 Hs) as (_ & Hc).
  assert (M : main_screen (app sess) = true) by (now apply main_screen_true).
  assert (Hl : isPizzaLoading (app sess) = false).
  { destruct (isPizzaLoading (app sess)); [|reflexivity].
    destruct H5 as (_ & ? & _); [reflexivity | congruence]. }
  split; [|split].
  - intros i pizza N. unfold step, menu_listed. rewrite M, Hl, N.
    destruct (pizzaError (app sess)) eqn:E; [|reflexivity].
    rewrite H6 in N by congruence. destruct i; discriminate.
  - intros i item N. unfold step. rewrite M, N. repeat split.
    intro Q. apply Z.leb_gt in Q. now rewrite Q.
  - intros evs sess' calls response NS Rn.
    destruct (run_in_flight evs I P NS Rn) as (_ & P' & _ & _).
    eexists. unfold step. rewrite P'. repeat split.
Qed.

(** ** The scenario of the specification, run on the model *)

Lemma session_after_reachable (evs : list (Event Z)) : reachable (session_after evs).
Proof.
  unfold session_after.
  destruct (run (fst (mount Z)) evs) as [[sess calls]|] eqn:E.
  - exact (run_reachable evs (reachable_mount (num:=Z)) E).
  - apply reachable_mount.
Qed.


Lemma ann_not_blank : ~ blank ann.
Proof. apply nonempty_trim_true. reflexivity. Qed.

Lemma main_street_not_blank : ~ blank main_street.
Proof. apply nonempty_trim_true. reflexivity. Qed.

(** The scenario: A twice and B once give two lines and a subtotal of 25. *)
Example scenario_cart :
  map (fun item => (item_id item, item_quantity item)) (cart (app (session_after fill_cart)))
  = [(1, 2); (2, 1)]
  /\ subtotal (cart (app (session_after fill_cart))) = 25.
Proof. split; reflexivity. Qed.

(** C1 at the scenario: blank name refused, in flight refused, otherwise
    accepted. *)
Lemma C1_submit_guard_witness :
  step (session_after fill_cart) (EvSubmitForm (js "  ") main_street)
  = Some (session_after fill_cart, [])
  /\ step (session_after (fill_cart ++ [submit_ann])) submit_ann
     = Some (session_after (fill_cart ++ [submit_ann]), [])
  /\ exists k, OrderForm_handleSubmit ann main_street (app (session_after fill_cart))
               = (setOrderConfirmation None
                    (setSubmissionError None
                       (setIsSubmitting true (app (session_after fill_cart)))), Some k).
Proof.
  pose proof (C1_submit_guard (js "  ") main_street (session_after fill_cart)) as [R1 _].
  pose proof (C1_submit_guard ann main_street (session_after (fill_cart ++ [submit_ann])))
    as [R2 _].
  pose proof (C1_submit_guard ann main_street (session_after fill_cart)) as [_ A].
  split; [|split].
  - apply R1; [|reflexivity]. right. left. apply nonempty_trim_false. reflexivity.
  - apply R2; [|reflexivity]. do 3 right. reflexivity.
  - destruct A as (k & E & _).
    + intros [H|[H|[H|H]]].
      * discriminate H.
      * exact (ann_not_blank H).
      * exact (main_street_not_blank H).
      * discriminate H.
    + exists k. exact E.
Defined.

Lemma C6_submit_payload_witness :
  exists sess',
    step (session_after fill_cart) submit_ann
    = Some (sess', [CallSubmitOrder
                      (mkOrderPayload ann main_street [mkOrderLine 1 2; mkOrderLine 2 1] 25)])
    /\ submitPending sess' = Some 25.
Proof.
  destruct (@C6_submit_payload Z _ ann main_street (session_after fill_cart))
    as (s' & payload & _ & Hn & Ha & Hi & Ht & _ & S).
  - discriminate.
  - exact ann_not_blank.
  - exact main_street_not_blank.
  - reflexivity.
  - destruct S as (sess' & S & P); [reflexivity|].
    assert (E : payload
                = mkOrderPayload ann main_street [mkOrderLine 1 2; mkOrderLine 2 1] 25).
    { destruct payload; simpl in *. subst. reflexivity. }
    exists sess'. rewrite <- E. split; [exact S|]. rewrite P, E. reflexivity.
Defined.


Lemma C4_add_item_witness :
  cart (handleAddToCart pizzaB (app (session_after fill_cart)))
  = [mkCartItem 1 (js "A") (js "first item") 10 2;
     mkCartItem 2 (js "B") (js "second item") 5 2]
  /\ cart (handleAddToCart pizzaA (initialState Z)) = [mkCartItem 1 (js "A") (js "first item") 10 1]
  /\ submissionError (handleAddToCart pizzaA (initialState Z)) = None.
Proof.
  destruct (C4_add_item pizzaB (app (session_after fill_cart))) as (_ & One & _).
  destruct (C4_add_item pizzaA (initialState Z)) as (New & _ & _ & Err & _).
  split; [|split; [|exact Err]].
  - assert (Hpre : absent (pizza_id pizzaB) [mkCartItem 1 (js "A") (js "first item") 10 2])
      by (intros item [<-|[]]; discriminate).
    assert (Hpost : absent (pizza_id pizzaB) (@nil (CartItem Z))) by (intros item []).
    destruct (One [mkCartItem 1 (js "A") (js "first item") 10 2]
                  (mkCartItem 2 (js "B") (js "second item") 5 1) []
                  eq_refl eq_refl Hpre Hpost) as (_ & Plus).
    apply Plus. simpl. lia.
  - apply New. intros item [].
Defined.

(** C4 as stated fails at the edge of the integers a double can count: the
    line stands at 2^53, the sum with 1 rounds back to 2^53, and adding the
    item leaves the quantity where it was instead of raising it by 1. *)
Lemma C4_no_increment_at_2_53 :
  cart cart_at_2_53
  = [mkCartItem 1 (js "A") (js "first item") 10 9007199254740992]
  /\ cart (handleAddToCart pizzaA cart_at_2_53)
     = [mkCartItem 1 (js "A") (js "first item") 10 9007199254740992]
  /\ cart (handleAddToCart pizzaA cart_at_2_53)
     <> [mkCartItem 1 (js "A") (js "first item") 10 (9007199254740992 + 1)].
Proof.
  split; [reflexivity|]. split; [reflexivity|].
  intro H. apply (f_equal (map (@item_quantity Z))) in H.
  vm_compute in H. discriminate H.
Qed.

Lemma C5_set_quantity_witness :
  handleUpdateQuantity 1 (-3) (app (session_after fill_cart))
  = handleRemoveItem 1 (app (session_after fill_cart))
  /\ handleUpdateQuantity 7 4 (app (session_after fill_cart)) = app (session_after fill_cart)
  /\ map (fun item => (item_id item, item_quantity item))
         (cart (handleUpdateQuantity 2 1000000 (app (session_after fill_cart))))
     = [(1, 2); (2, 1000000)].
Proof.
  destruct (C5_set_quantity 1 (-3) (app (session_after fill_cart))) as (Neg & _ & _).
  destruct (C5_set_quantity 7 4 (app (session_after fill_cart))) as (_ & _ & Abs).
  split; [apply Neg; lia|]. split; [|reflexivity].
  apply Abs. intros item [<-|[<-|[]]]; discriminate.
Defined.

Lemma C9_menu_loaded_once_witness :
  List.length
    (filter (@is_fetch_call Z)
            (snd (mount Z) ++
             [CallSubmitOrder
                (mkOrderPayload ann main_street [mkOrderLine 1 2; mkOrderLine 2 1] 25)]))
  = 1%nat.
Proof.
  destruct (@C9_menu_loaded_once Z _) as (_ & _ & Once & _).
  apply (Once (fill_cart ++ [submit_ann; EvSubmitRejected server_rejected; EvClickAdd 0])
              (session_after
                 (fill_cart ++ [submit_ann; EvSubmitRejected server_rejected; EvClickAdd 0]))).
  reflexivity.
Defined.

Lemma C7_cart_invariant_witness :
  map (fun item => (item_id item, item_quantity item))
      (cart (apply_ops (initialState Z) rebuilt_cart)) = [(2, 5); (1, 1)]
  /\ created_at rebuilt_cart 2 = Some 1%nat
  /\ created_at rebuilt_cart 1 = Some 3%nat
  /\ NoDup (map (@item_id Z) (cart (apply_ops (initialState Z) rebuilt_cart)))
  /\ StronglySorted (created_before rebuilt_cart)
       (map (@item_id Z) (cart (apply_ops (initialState Z) rebuilt_cart)))
  /\ Forall (fun item => 1 <= item_quantity item)
       (cart (apply_ops (initialState Z) rebuilt_cart)).
Proof.
  split; [reflexivity|]. split; [reflexivity|]. split; [reflexivity|].
  destruct (@C7_cart_invariant Z (initialState Z) rebuilt_cart) as (H1 & H2 & H3 & _).
  - reflexivity.
  - split; [exact H1|]. split; [exact H2 | exact H3].
Defined.

Lemma C3_submit_success_witness :
  exists sess3,
    step (session_after (fill_cart ++ [submit_ann; EvClickAdd 1]))
         (EvSubmitResolved sample_response) = Some (sess3, []) /\
    orderConfirmation (app sess3)
    = Some (mkConfirmation (js "ORD-1") (js "2024-01-01T00:00:00.000Z") 25) /\
    cart (app sess3) = [] /\ submissionError (app sess3) = None.
Proof.
  destruct (@C3_submit_success Z _
              (session_after fill_cart)
              (session_after (fill_cart ++ [submit_ann]))
              (session_after (fill_cart ++ [submit_ann; EvClickAdd 1]))
              ann main_street
              (mkOrderPayload ann main_street [mkOrderLine 1 2; mkOrderLine 2 1] 25)
              [EvClickAdd 1] [] sample_response)
    as (sess3 & S & Hc & Hk & He & _).
  - apply session_after_reachable.
  - reflexivity.
  - reflexivity.
  - reflexivity.
  - exists sess3. repeat split; assumption.
Defined.

Lemma C2_submit_failure_witness :
  exists sess3,
    step (session_after (fill_cart ++ [submit_ann; submit_ann]))
         (EvSubmitRejected server_rejected) = Some (sess3, []) /\
    submissionError (app sess3)
    = Some (js "Order submission failed: Server rejected the order due to invalid data.") /\
    orderConfirmation (app sess3) = None /\
    cart (app sess3) = cart (app (session_after fill_cart)).
Proof.
  destruct (@C2_submit_failure Z _
              (session_after fill_cart)
              (session_after (fill_cart ++ [submit_ann]))
              (session_after (fill_cart ++ [submit_ann; submit_ann]))
              ann main_street
              (mkOrderPayload ann main_street [mkOrderLine 1 2; mkOrderLine 2 1] 25)
              [submit_ann] [] server_rejected)
    as (sess3 & S & _ & _ & He & _ & _ & _ & Hc & _ & Hk).
  - apply session_after_reachable.
  - reflexivity.
  - reflexivity.
  - reflexivity.
  - exists sess3. repeat split; try assumption. apply Hk. reflexivity.
Defined.

(** C2 as stated fails: B is added while the call is in flight, the call
    fails, and the cart is then not the cart of the moment of submission. *)
Lemma C2_cart_changed_during_flight :
  step (session_after fill_cart) submit_ann
  = Some (session_after (fill_cart ++ [submit_ann]),
          [CallSubmitOrder
             (mkOrderPayload ann main_street [mkOrderLine 1 2; mkOrderLine 2 1] 25)])
  /\ step (session_after (fill_cart ++ [submit_ann])) (EvClickAdd 1)
     = Some (session_after (fill_cart ++ [submit_ann; EvClickAdd 1]), [])
  /\ step (session_after (fill_cart ++ [submit_ann; EvClickAdd 1]))
          (EvSubmitRejected server_rejected)
     = Some (session_after
               (fill_cart ++ [submit_ann; EvClickAdd 1; EvSubmitRejected server_rejected]),
             [])
  /\ map (fun item => (item_id item, item_quantity item))
         (cart (app (session_after fill_cart))) = [(1, 2); (2, 1)]
  /\ map (fun item => (item_id item, item_quantity item))
         (cart (app (session_after
                       (fill_cart ++ [submit_ann; EvClickAdd 1;
                                      EvSubmitRejected server_rejected]))))
     = [(1, 2); (2, 2)]
  /\ cart (app (session_after
                  (fill_cart ++ [submit_ann; EvClickAdd 1;
                                 EvSubmitRejected server_rejected])))
     <> cart (app (session_after fill_cart)).
Proof.
  repeat split.
  intro H. apply (f_equal (map (@item_quantity Z))) in H. discriminate H.
Qed.

Lemma C8_place_another_order_witness :
  exists sess',
    step (session_after (fill_cart ++ [submit_ann; EvSubmitResolved sample_response]))
         EvPlaceAnother = Some (sess', []) /\
    isSubmitting (app sess') = false /\ cart (app sess') = [] /\
    submissionError (app sess') = None /\ orderConfirmation (app sess') = None.
Proof.
  destruct (@C8_place_another_order Z _
              (session_after (fill_cart ++ [submit_ann; EvSubmitResolved sample_response]))
              (mkConfirmation (js "ORD-1") (js "2024-01-01T00:00:00.000Z") 25))
    as (_ & sess' & S & Hs & _ & Hc & He & Ho).
  - apply session_after_reachable.
  - reflexivity.
  - exists sess'. repeat split; assumption.
Defined.

Lemma C10_mutations_in_flight_witness :
  map (fun item => (item_id item, item_quantity item))
      (cart (app (session_after (fill_cart ++ [submit_ann; EvClickAdd 1; EvClickRemove 0]))))
  = [(2, 2)]
  /\ exists sess'',
       step (session_after (fill_cart ++ [submit_ann; EvClickAdd 1; EvClickRemove 0]))
            (EvSubmitResolved sample_response) = Some (sess'', []) /\
       cart (app sess'') = [] /\
       orderConfirmation (app sess'')
       = Some (mkConfirmation (js "ORD-1") (js "2024-01-01T00:00:00.000Z") 25).
Proof.
  split; [reflexivity|].
  destruct (@C10_mutations_in_flight Z _
              (session_after (fill_cart ++ [submit_ann])) 25)
    as (_ & _ & D).
  - apply session_after_reachable.
  - reflexivity.
  - apply (D [EvClickAdd 1; EvClickRemove 0] _ [] sample_response); reflexivity.
Defined.

(** * Further properties of the handlers *)

Unset Implicit Arguments.

Section CartAlgebra.

Context {num : Type}.

Implicit Types (c pre post : list (CartItem num)) (item : CartItem num).

Lemma removeFromCart_app k pre post :
  removeFromCart k (pre ++ post) = removeFromCart k pre ++ removeFromCart k post.
Proof. unfold removeFromCart. apply filter_app. Qed.

Lemma removeFromCart_absent_after k c : absent k (removeFromCart k c).
Proof.
  intros item H. apply filter_In in H. destruct H as [_ H].
  apply negb_true_iff, Z.eqb_neq in H. exact H.
Qed.

Lemma removeFromCart_single k pre item post :
  item_id item = k -> absent k pre -> absent k post ->
  removeFromCart k (pre ++ item :: post) = pre ++ post.
Proof.
  intros E Hpre Hpost. rewrite removeFromCart_app. simpl.
  apply Z.eqb_eq in E. rewrite E. simpl.
  now rewrite !filter_absent.
Qed.

Lemma removeFromCart_map_if k (f : CartItem num -> CartItem num) c :
  (forall item, item_id (f item) = item_id item) ->
  removeFromCart k (map (fun item => if item_id item =? k then f item else item) c)
  = removeFromCart k c.
Proof.
  intro Hf. induction c as [|a c IH]; simpl; [reflexivity|].
  destruct (item_id a =? k) eqn:E; simpl.
  - rewrite Hf, E. simpl. exact IH.
  - rewrite E. simpl. now rewrite IH.
Qed.

Lemma removeFromCart_addToCart (pizza : Pizza num) c :
  removeFromCart (pizza_id pizza) (addToCart pizza c) = removeFromCart (pizza_id pizza) c.
Proof.
  destruct (absent_dec (pizza_id pizza) c) as [Ha|Hp].
  - rewrite addToCart_absent by assumption.
    rewrite removeFromCart_app. simpl. rewrite Z.eqb_refl. simpl. apply app_nil_r.
  - rewrite addToCart_present by assumption.
    now apply removeFromCart_map_if
      with (f := fun it => with_quantity it (js_add (item_quantity it) 1)).
Qed.

Lemma updateInCart_twice k n m c :
  updateInCart k m (updateInCart k n c) = updateInCart k m c.
Proof.
  unfold updateInCart. rewrite map_map. apply map_ext. intro item.
  destruct (item_id item =? k) eqn:E; simpl; rewrite E; reflexivity.
Qed.

Lemma updateInCart_absent k n c : absent k c -> updateInCart k n c = c.
Proof. intro H. unfold updateInCart. now apply map_absent with (f := fun it => with_quantity it n). Qed.

Lemma updateInCart_commute j k m n c :
  j <> k ->
  updateInCart j m (updateInCart k n c) = updateInCart k n (updateInCart j m c).
Proof.
  intro D. unfold updateInCart. rewrite !map_map. apply map_ext. intro item.
  destruct (item_id item =? k) eqn:Ek, (item_id item =? j) eqn:Ej; simpl;
    rewrite ?Ek, ?Ej; try reflexivity.
  apply Z.eqb_eq in Ek, Ej. congruence.
Qed.

Lemma removeFromCart_commute j k c :
  removeFromCart j (removeFromCart k c) = removeFromCart k (removeFromCart j c).
Proof.
  induction c as [|a c IH]; simpl; [reflexivity|].
  destruct (item_id a =? k) eqn:Ek, (item_id a =? j) eqn:Ej; simpl;
    rewrite ?Ek, ?Ej; simpl; now rewrite ?IH.
Qed.

Lemma removeFromCart_updateInCart j k n c :
  j <> k ->
  removeFromCart j (updateInCart k n c) = updateInCart k n (removeFromCart j c).
Proof.
  intro D. induction c as [|a c IH]; simpl; [reflexivity|].
  destruct (item_id a =? k) eqn:Ek, (item_id a =? j) eqn:Ej; simpl;
    rewrite ?Ek, ?Ej; simpl; rewrite ?Ek, ?IH; reflexivity.
Qed.

Lemma with_quantity_same item : with_quantity item (item_quantity item) = item.
Proof. destruct item; reflexivity. Qed.

End CartAlgebra.

(** X1.  [handleRemoveItem] drops every line of the given id and nothing
    else: afterwards no line has the id, the lines that remain are exactly
    the others, a cart with a single line of that id loses just that line
    with the order of the rest kept, a second removal changes nothing, and
    only the cart cell is touched. *)
Theorem X1_remove_item {num : Type} (k : Z) (s : AppState num) :
  absent k (cart (handleRemoveItem k s)) /\
  (forall item,
     In item (cart (handleRemoveItem k s)) <-> In item (cart s) /\ item_id item <> k) /\
  (forall pre item post,
     cart s = pre ++ item :: post ->
     item_id item = k -> absent k pre -> absent k post ->
     cart (handleRemoveItem k s) = pre ++ post) /\
  handleRemoveItem k (handleRemoveItem k s) = handleRemoveItem k s /\
  handleRemoveItem k s = setCart (cart (handleRemoveItem k s)) s.
Proof.
  split; [apply removeFromCart_absent_after|].
  split.
  { intro item. simpl. unfold removeFromCart.
    rewrite filter_In, negb_true_iff, Z.eqb_neq. reflexivity. }
  split.
  { intros pre item post E Hid Hpre Hpost. simpl. rewrite E.
    now apply removeFromCart_single. }
  split; [|reflexivity].
  unfold handleRemoveItem, setCart. simpl.
  rewrite (filter_absent (@removeFromCart_absent_after num k (cart s))). reflexivity.
Qed.

(** X2.  Removing an item right after adding it undoes the addition as far
    as the cart goes: the cart is the one a plain removal would give, and it
    is the original cart when the item was not in it. *)
Theorem X2_add_then_remove {num : Type} (pizza : Pizza num) (s : AppState num) :
  cart (handleRemoveItem (pizza_id pizza) (handleAddToCart pizza s))
  = cart (handleRemoveItem (pizza_id pizza) s) /\
  (absent (pizza_id pizza) (cart s) ->
   cart (handleRemoveItem (pizza_id pizza) (handleAddToCart pizza s)) = cart s).
Proof.
  simpl. split.
  - apply removeFromCart_addToCart.
  - intro H. rewrite removeFromCart_addToCart. now apply filter_absent.
Qed.

(** X3.  Adding the same item over and over to a cart that lacks it yields
    one line at the end of the cart whose quantity is the number of
    additions, as long as that number does not exceed 2^53, the last count a
    double can step up to by 1. *)
Theorem X3_repeated_add {num : Type} (pizza : Pizza num) (s : AppState num) (n : nat) :
  absent (pizza_id pizza) (cart s) ->
  Z.of_nat (S n) <= 2 ^ 53 ->
  cart (apply_ops s (repeat (AddItem pizza) (S n)))
  = cart s ++ [with_quantity (new_item pizza) (Z.of_nat (S n))].
Proof.
  intro H. induction n as [|n IH]; intro B.
  - simpl. now rewrite addToCart_absent.
  - replace (repeat (AddItem pizza) (S (S n)))
      with (repeat (AddItem pizza) (S n) ++ [AddItem pizza])
      by (symmetry; apply (repeat_cons (S n) (AddItem pizza))).
    rewrite apply_ops_snoc, cart_apply_op, IH by lia.
    assert (Q : Z.of_nat (S (S n)) = Z.of_nat (S n) + 1) by lia.
    rewrite Q in *. clear IH Q.
    assert (Pos : 0 <= Z.of_nat (S n)) by lia.
    generalize dependent (Z.of_nat (S n)). intros q B Pos.
    cbn [cart_op].
    rewrite addToCart_present.
    + rewrite map_single
        with (f := fun it => with_quantity it (js_add (item_quantity it) 1));
        [|reflexivity | assumption | intros x []].
      cbn [with_quantity new_item item_quantity item_id item_name item_description
           item_price].
      rewrite js_add_exact by lia. reflexivity.
    + intro A. apply absent_app in A. destruct A as [_ A].
      apply absent_cons in A. destruct A as [A _]. apply A. reflexivity.
Qed.

(** X4.  The name, the description and the price of a line are those of the
    item that created it: adding an item whose id is already in the cart,
    whatever name or price it comes with, and setting a positive quantity
    change quantities only. *)
Theorem X4_fields_captured {num : Type} (pizza : Pizza num) (k n : Z) (s : AppState num) :
  (~ absent (pizza_id pizza) (cart s) ->
   map (@item_fields num) (cart (handleAddToCart pizza s))
   = map (@item_fields num) (cart s)) /\
  (0 < n ->
   map (@item_fields num) (cart (handleUpdateQuantity k n s))
   = map (@item_fields num) (cart s)).
Proof.
  split.
  - intro H. simpl. rewrite addToCart_present by assumption.
    rewrite map_map. apply map_ext. intro item.
    destruct (item_id item =? pizza_id pizza); reflexivity.
  - intro H. unfold handleUpdateQuantity. apply Z.leb_gt in H. rewrite H. simpl.
    unfold updateInCart. rewrite map_map. apply map_ext. intro item.
    destruct (item_id item =? k); reflexivity.
Qed.

(** X5.  Quantity changes compose as writes to a slot: of two changes to the
    same id the later one wins when the earlier was positive, and is lost
    when the earlier removed the line; changes to different ids can be made
    in either order. *)
Theorem X5_set_quantity_compose {num : Type} (j k m n : Z) (s : AppState num) :
  (0 < n ->
   handleUpdateQuantity k m (handleUpdateQuantity k n s) = handleUpdateQuantity k m s) /\
  (n <= 0 ->
   handleUpdateQuantity k m (handleUpdateQuantity k n s) = handleRemoveItem k s) /\
  (j <> k ->
   handleUpdateQuantity j m (handleUpdateQuantity k n s)
   = handleUpdateQuantity k n (handleUpdateQuantity j m s)).
Proof.
  unfold handleUpdateQuantity, handleRemoveItem, setCart.
  split; [|split].
  - intro H. apply Z.leb_gt in H. rewrite H.
    destruct (m <=? 0); simpl; f_equal.
    + now apply removeFromCart_map_if with (f := fun it => with_quantity it n).
    + apply updateInCart_twice.
  - intro H. apply Z.leb_le in H. rewrite H.
    destruct (m <=? 0); simpl; f_equal.
    + apply filter_absent, removeFromCart_absent_after.
    + apply updateInCart_absent, removeFromCart_absent_after.
  - intro D. destruct (n <=? 0), (m <=? 0); simpl; f_equal.
    + apply removeFromCart_commute.
    + symmetry. apply removeFromCart_updateInCart. congruence.
    + now apply removeFromCart_updateInCart.
    + now apply updateInCart_commute.
Qed.

(** * Further properties of the page *)

Section CartGood.

Context {num : Type} {JN : JsNumber num}.

Lemma cart_good_nil (s : AppState num) : cart s = [] -> cart_good s.
Proof.
  intro E. unfold cart_good. rewrite E. simpl. repeat split; constructor.
Qed.

Lemma cart_good_frame (s s' : AppState num) :
  cart s' = cart s -> pizzas s' = pizzas s -> cart_good s -> cart_good s'.
Proof. unfold cart_good. intros -> ->. exact (fun H => H). Qed.

Lemma cart_good_remove (k : Z) (s : AppState num) :
  cart_good s -> cart_good (handleRemoveItem k s).
Proof.
  intros (Hnd & Hq & Hm). unfold cart_good. simpl. repeat split.
  - rewrite ids_remove. now apply NoDup_filter.
  - unfold removeFromCart. rewrite Forall_forall in *. intros item Hi.
    apply filter_In in Hi. apply Hq. tauto.
  - unfold removeFromCart. rewrite Forall_forall in *. intros item Hi.
    apply filter_In in Hi. apply Hm. tauto.
Qed.

Lemma cart_good_update (k n : Z) (s : AppState num) :
  cart_good s -> 0 < n -> cart_good (setCart (updateInCart k n (cart s)) s).
Proof.
  intros (Hnd & Hq & Hm) Hn. unfold cart_good. simpl. repeat split.
  - unfold updateInCart. rewrite ids_map_if; [assumption | reflexivity].
  - apply Forall_quantity_map_if; [assumption|]. intros item _. simpl. lia.
  - unfold updateInCart. rewrite Forall_forall in *. intros y Hy.
    apply in_map_iff in Hy. destruct Hy as (item & <- & Hi).
    destruct (Hm item Hi) as (pizza & Hp & E).
    exists pizza. split; [exact Hp|].
    destruct (item_id item =? k); exact E.
Qed.

Lemma cart_good_set_quantity (k n : Z) (s : AppState num) :
  cart_good s -> cart_good (handleUpdateQuantity k n s).
Proof.
  intro G. unfold handleUpdateQuantity. destruct (n <=? 0) eqn:E.
  - now apply cart_good_remove.
  - apply Z.leb_gt in E. now apply cart_good_update.
Qed.

Lemma cart_good_add (pizza : Pizza num) (s : AppState num) :
  cart_good s -> In pizza (pizzas s) -> cart_good (handleAddToCart pizza s).
Proof.
  intros (Hnd & Hq & Hm) Hp. unfold cart_good. simpl.
  destruct (absent_dec (pizza_id pizza) (cart s)) as [Ha|Hn].
  - rewrite addToCart_absent by assumption. repeat split.
    + unfold ids. rewrite map_app. simpl.
      apply NoDup_app_remove_l with (l := []). simpl.
      apply absent_ids in Ha.
      apply NoDup_app; [exact Hnd | repeat constructor; intros [] |].
      intros x Hx [<-|[]]. contradiction.
    + apply Forall_app. split; [exact Hq|]. repeat constructor. simpl. lia.
    + apply Forall_app. split; [exact Hm|]. repeat constructor.
      exists pizza. split; [exact Hp | reflexivity].
  - rewrite addToCart_present by assumption. repeat split.
    + rewrite ids_map_if; [assumption | reflexivity].
    + apply Forall_quantity_map_if; [assumption|]. intros item H. simpl.
      apply round_double_positive. lia.
    + rewrite Forall_forall in *. intros y Hy.
      apply in_map_iff in Hy. destruct Hy as (item & <- & Hi).
      destruct (Hm item Hi) as (pz & Hpz & E).
      exists pz. split; [exact Hpz|].
      destruct (item_id item =? pizza_id pizza); exact E.
Qed.

Lemma step_cart_good (sess sess' : Session num) ev calls :
  session_ok sess -> cart_good (app sess) ->
  step sess ev = Some (sess', calls) -> cart_good (app sess').
Proof.
  intros I G E.
  destruct ev as [data|error|i|i|i|i|nm ad|response|error|]; unfold step in E.
  - destruct (fetchPending sess) eqn:F; [|discriminate]. injection E as <- <-.
    apply cart_good_nil. simpl.
    destruct I as (H1 & _ & _ & _ & H5 & _). apply H5. congruence.
  - destruct (fetchPending sess) eqn:F; [|discriminate]. injection E as <- <-.
    apply cart_good_nil. simpl.
    destruct I as (H1 & _ & _ & _ & H5 & _). apply H5. congruence.
  - destruct (_ && _); [|discriminate].
    destruct (nth_error _ _) eqn:N; [|discriminate]. injection E as <- <-.
    apply cart_good_add; [assumption|]. eapply nth_error_In; eassumption.
  - destruct (main_screen _); [|discriminate].
    destruct (nth_error _ _); [|discriminate].
    destruct (_ <=? 1); [discriminate|]. injection E as <- <-.
    now apply cart_good_set_quantity.
  - destruct (main_screen _); [|discriminate].
    destruct (nth_error _ _); [|discriminate]. injection E as <- <-.
    now apply cart_good_set_quantity.
  - destruct (main_screen _); [|discriminate].
    destruct (nth_error _ _); [|discriminate]. injection E as <- <-.
    now apply cart_good_remove.
  - destruct (main_screen _); [|discriminate].
    unfold OrderForm_handleSubmit, handleOrderSubmit in E.
    destruct (canSubmit _ _ _ _); [destruct (_ || _)|];
      injection E as <- <-; exact G.
  - destruct (submitPending sess); [|discriminate]. injection E as <- <-.
    now apply cart_good_nil.
  - destruct (submitPending sess); [|discriminate]. injection E as <- <-. exact G.
  - destruct (main_screen _); [discriminate|]. injection E as <- <-. exact G.
Qed.

Lemma reachable_cart_good (sess : Session num) : reachable sess -> cart_good (app sess).
Proof.
  intro R. induction R as [|sess ev sess' calls R IH E].
  - now apply cart_good_nil.
  - eapply step_cart_good; [apply reachable_ok; exact R | exact IH | exact E].
Qed.

End CartGood.

(** X6.  In every session the page can reach, the cart has no two lines with
    the same id, every quantity is at least 1, and every line carries the id,
    name, description and price of an entry of the loaded menu. *)
Theorem X6_reachable_cart {num : Type} {JN : JsNumber num} (sess : Session num) :
  reachable sess ->
  NoDup (map (@item_id num) (cart (app sess))) /\
  Forall (fun item => 1 <= item_quantity item) (cart (app sess)) /\
  Forall (fun item => exists pizza,
              In pizza (pizzas (app sess)) /\
              pizza_id pizza = item_id item /\ pizza_name pizza = item_name item /\
              pizza_description pizza = item_description item /\
              pizza_price pizza = item_price item) (cart (app sess)).
Proof.
  intro R. destruct (reachable_cart_good _ R) as (Hnd & Hq & Hm).
  split; [exact Hnd|]. split; [exact Hq|].
  rewrite Forall_forall in *. intros item Hi.
  destruct (Hm item Hi) as (pizza & Hp & E).
  exists pizza. split; [exact Hp|].
  unfold pizza_fields, item_fields in E. injection E as -> -> -> ->. auto.
Qed.

Section RowClicks.

Context {num : Type} {JN : JsNumber num}.

Lemma ids_unique (c : list (CartItem num)) (x y : CartItem num) :
  NoDup (ids c) -> In x c -> In y c -> item_id x = item_id y -> x = y.
Proof.
  induction c as [|a c IH]; simpl; intros ND Hx Hy E; [contradiction|].
  inversion ND as [|? ? Ha ND']; subst.
  destruct Hx as [<-|Hx], Hy as [<-|Hy].
  - reflexivity.
  - exfalso. apply Ha. rewrite E. now apply in_map.
  - exfalso. apply Ha. rewrite <- E. now apply in_map.
  - now apply IH.
Qed.

Lemma update_own_quantity (c : list (CartItem num)) (item : CartItem num) :
  NoDup (ids c) -> In item c ->
  updateInCart (item_id item) (item_quantity item) c = c.
Proof.
  intros ND Hi. unfold updateInCart.
  rewrite <- (map_id c) at 2. apply map_ext_in. intros x Hx.
  destruct (item_id x =? item_id item) eqn:E; [|reflexivity].
  apply Z.eqb_eq in E.
  assert (x = item) as -> by (eapply ids_unique; eassumption).
  apply with_quantity_same.
Qed.

Lemma split_row (c : list (CartItem num)) (i : nat) (item : CartItem num) :
  NoDup (ids c) -> nth_error c i = Some item ->
  exists pre post,
    c = pre ++ item :: post /\ List.length pre = i /\
    absent (item_id item) pre /\ absent (item_id item) post.
Proof.
  intros ND N. destruct (nth_error_split c i N) as (pre & post & E & L).
  exists pre, post. split; [exact E|]. split; [exact L|].
  subst c. unfold ids in ND. rewrite map_app in ND. simpl in ND.
  apply NoDup_remove_2 in ND.
  split; apply absent_ids; intro H; apply ND, in_or_app; [left | right]; exact H.
Qed.

Lemma with_app_setCart_same (sess : Session num) :
  with_app sess (setCart (cart (app sess)) (app sess)) = sess.
Proof. destruct sess as [[] ? ?]; reflexivity. Qed.

Lemma click_plus (sess : Session num) i item :
  main_screen (app sess) = true ->
  nth_error (cart (app sess)) i = Some item ->
  1 <= item_quantity item ->
  step sess (EvClickPlus i)
  = Some (with_app sess
            (setCart (updateInCart (item_id item) (js_add (item_quantity item) 1)
                                   (cart (app sess)))
                     (app sess)), []).
Proof.
  intros M N Q. unfold step. rewrite M, N. unfold handleUpdateQuantity.
  assert (P : 1 <= js_add (item_quantity item) 1)
    by (apply round_double_positive; lia).
  replace (js_add (item_quantity item) 1 <=? 0) with false
    by (symmetry; apply Z.leb_gt; lia).
  reflexivity.
Qed.

Lemma click_minus (sess : Session num) i item :
  main_screen (app sess) = true ->
  nth_error (cart (app sess)) i = Some item ->
  1 < item_quantity item ->
  step sess (EvClickMinus i)
  = Some (with_app sess
            (setCart (updateInCart (item_id item) (js_sub (item_quantity item) 1)
                                   (cart (app sess)))
                     (app sess)), []).
Proof.
  intros M N Q. unfold step. rewrite M, N. unfold handleUpdateQuantity.
  assert (P : 1 <= js_sub (item_quantity item) 1)
    by (apply round_double_positive; lia).
  replace (item_quantity item <=? 1) with false by (symmetry; apply Z.leb_gt; lia).
  replace (js_sub (item_quantity item) 1 <=? 0) with false
    by (symmetry; apply Z.leb_gt; lia).
  reflexivity.
Qed.

Lemma row_after_update (c : list (CartItem num)) i item n :
  nth_error c i = Some item ->
  nth_error (updateInCart (item_id item) n c) i = Some (with_quantity item n).
Proof.
  intro N. unfold updateInCart. rewrite nth_error_map, N. simpl.
  now rewrite Z.eqb_refl.
Qed.

(** Giving a row another quantity and then its own quantity again. *)
Lemma there_and_back (sess : Session num) i item (a : Z) :
  NoDup (ids (cart (app sess))) ->
  nth_error (cart (app sess)) i = Some item ->
  with_app
    (with_app sess
       (setCart (updateInCart (item_id item) a (cart (app sess))) (app sess)))
    (setCart (updateInCart (item_id item) (item_quantity item)
                (updateInCart (item_id item) a (cart (app sess))))
       (setCart (updateInCart (item_id item) a (cart (app sess))) (app sess)))
  = sess.
Proof.
  intros ND N. rewrite updateInCart_twice.
  rewrite update_own_quantity by (assumption || (eapply nth_error_In; eassumption)).
  destruct sess as [[] ? ?]; reflexivity.
Qed.

(** A click that gives a row its own quantity back, after the row was given
    the quantity [a], restores the session. *)
Lemma second_click (sess : Session num) i item (a b : Z) ev :
  NoDup (ids (cart (app sess))) ->
  nth_error (cart (app sess)) i = Some item ->
  b = item_quantity item ->
  step (with_app sess
          (setCart (updateInCart (item_id item) a (cart (app sess))) (app sess))) ev
  = Some (with_app
            (with_app sess
               (setCart (updateInCart (item_id item) a (cart (app sess))) (app sess)))
            (setCart (updateInCart (item_id item) b
                        (updateInCart (item_id item) a (cart (app sess))))
               (setCart (updateInCart (item_id item) a (cart (app sess))) (app sess))),
          []) ->
  step (with_app sess
          (setCart (updateInCart (item_id item) a (cart (app sess))) (app sess))) ev
  = Some (sess, []).
Proof.
  intros ND N -> E. rewrite E. now rewrite (there_and_back sess i item a ND N).
Qed.

Lemma row_means_main (sess : Session num) i item :
  session_ok sess -> nth_error (cart (app sess)) i = Some item ->
  main_screen (app sess) = true.
Proof.
  intros (_ & _ & _ & H4 & _) N. apply main_screen_true.
  destruct (orderConfirmation (app sess)) eqn:C; [|reflexivity].
  destruct H4 as (E & _); [congruence|].
  rewrite E in N. destruct i; discriminate.
Qed.

Lemma run_two (sess s1 s2 : Session num) e1 e2 :
  step sess e1 = Some (s1, []) -> step s1 e2 = Some (s2, []) ->
  run sess [e1; e2] = Some (s2, []).
Proof. intros E1 E2. cbn [run]. rewrite E1, E2. reflexivity. Qed.

End RowClicks.

(** X7.  On a reachable session showing the cart, the plus and the minus
    button of a row undo each other as long as the quantity can step by 1 in
    a double: plus then minus leaves the whole session as it was when the
    quantity is below 2^53, and so does minus then plus on a row whose
    quantity is above 1 and at most 2^53.  The minus button never deletes a
    row: it is disabled at quantity 1, and where it is enabled the cart
    keeps its length. *)
Theorem X7_plus_minus {num : Type} {JN : JsNumber num}
        (sess : Session num) (i : nat) (item : CartItem num) :
  reachable sess ->
  nth_error (cart (app sess)) i = Some item ->
  (item_quantity item < 2 ^ 53 ->
   run sess [EvClickPlus i; EvClickMinus i] = Some (sess, [])) /\
  (1 < item_quantity item -> item_quantity item <= 2 ^ 53 ->
   run sess [EvClickMinus i; EvClickPlus i] = Some (sess, [])) /\
  (item_quantity item = 1 -> step sess (EvClickMinus i) = None) /\
  (forall sess' calls,
     step sess (EvClickMinus i) = Some (sess', calls) ->
     List.length (cart (app sess')) = List.length (cart (app sess))).
Proof.
  intros R N. destruct (reachable_cart_good _ R) as (ND & Hq & _).
  pose proof (row_means_main sess i item (reachable_ok R) N) as M.
  assert (Q : 1 <= item_quantity item).
  { rewrite Forall_forall in Hq. apply Hq. eapply nth_error_In; eassumption. }
  split; [|split; [|split]].
  - intro B.
    assert (A : js_add (item_quantity item) 1 = item_quantity item + 1)
      by (apply js_add_exact; lia).
    eapply run_two; [exact (click_plus sess i item M N Q)|].
    apply (second_click sess i item _ (item_quantity item) _ ND N eq_refl).
    rewrite (click_minus _ i (with_quantity item (js_add (item_quantity item) 1)));
      [| exact M | apply row_after_update; exact N | rewrite A; simpl; lia].
    cbn [item_id item_quantity with_quantity].
    rewrite A at 2.
    rewrite (js_sub_exact (item_quantity item + 1) 1) by lia.
    replace (item_quantity item + 1 - 1) with (item_quantity item) by lia.
    reflexivity.
  - intros Q1 B.
    assert (A : js_sub (item_quantity item) 1 = item_quantity item - 1)
      by (apply js_sub_exact; lia).
    eapply run_two; [exact (click_minus sess i item M N Q1)|].
    apply (second_click sess i item _ (item_quantity item) _ ND N eq_refl).
    rewrite (click_plus _ i (with_quantity item (js_sub (item_quantity item) 1)));
      [| exact M | apply row_after_update; exact N | rewrite A; simpl; lia].
    cbn [item_id item_quantity with_quantity].
    rewrite A at 2.
    rewrite (js_add_exact (item_quantity item - 1) 1) by lia.
    replace (item_quantity item - 1 + 1) with (item_quantity item) by lia.
    reflexivity.
  - intro Q1. unfold step. rewrite M, N, Q1. reflexivity.
  - intros sess' calls E. unfold step in E. rewrite M, N in E.
    destruct (item_quantity item <=? 1) eqn:L; [discriminate|].
    injection E as <- <-. apply Z.leb_gt in L.
    unfold handleUpdateQuantity.
    assert (P : 1 <= js_sub (item_quantity item) 1)
      by (apply round_double_positive; lia).
    replace (js_sub (item_quantity item) 1 <=? 0) with false
      by (symmetry; apply Z.leb_gt; lia).
    simpl. apply length_map.
Qed.

(** X8.  On a reachable session, the remove button of a row takes out that
    row and nothing else: the rows before it and after it stay, in order,
    and no call is issued. *)
Theorem X8_remove_row {num : Type} {JN : JsNumber num}
        (sess : Session num) (i : nat) (item : CartItem num) :
  reachable sess ->
  nth_error (cart (app sess)) i = Some item ->
  exists pre post sess',
    cart (app sess) = pre ++ item :: post /\ List.length pre = i /\
    step sess (EvClickRemove i) = Some (sess', []) /\
    cart (app sess') = pre ++ post /\
    sess' = with_app sess (setCart (pre ++ post) (app sess)).
Proof.
  intros R N. destruct (reachable_cart_good _ R) as (ND & _ & _).
  pose proof (row_means_main sess i item (reachable_ok R) N) as M.
  destruct (split_row _ i item ND N) as (pre & post & E & L & Hpre & Hpost).
  exists pre, post. eexists. split; [exact E|]. split; [exact L|].
  unfold step. rewrite M, N.
  split; [reflexivity|].
  assert (C : removeFromCart (item_id item) (cart (app sess)) = pre ++ post).
  { rewrite E. apply removeFromCart_single; [reflexivity | assumption | assumption]. }
  split; [exact C|]. unfold handleRemoveItem. rewrite C. reflexivity.
Qed.

Section Calls.

Context {num : Type} {JN : JsNumber num}.

(** The calls of one step: none, unless the step is an accepted submission
    of the form, which issues the one call [submit_accepted] describes. *)
Lemma step_calls (sess sess' : Session num) ev calls :
  step sess ev = Some (sess', calls) ->
  (calls = [] /\ submitPending sess' = (if is_settlement ev then None else submitPending sess)
   /\ (is_settlement ev = true -> submitPending sess <> None))
  \/
  (exists nm ad,
     ev = EvSubmitForm nm ad /\
     canSubmit (cart (app sess)) nm ad (isSubmitting (app sess)) = true /\
     calls = [CallSubmitOrder
                (mkOrderPayload nm ad
                   (map (fun item => mkOrderLine (item_id item) (item_quantity item))
                        (cart (app sess)))
                   (subtotal (cart (app sess))))] /\
     submitPending sess' = Some (subtotal (cart (app sess)))).
Proof.
  intro E.
  destruct ev as [data|error|i|i|i|i|nm ad|response|error|]; unfold step in E.
  - destruct (fetchPending sess); [|discriminate]. injection E as <- <-.
    left. repeat split. discriminate.
  - destruct (fetchPending sess); [|discriminate]. injection E as <- <-.
    left. repeat split. discriminate.
  - destruct (_ && _); [|discriminate].
    destruct (nth_error _ _); [|discriminate]. injection E as <- <-.
    left. repeat split. discriminate.
  - destruct (main_screen _); [|discriminate].
    destruct (nth_error _ _); [|discriminate].
    destruct (_ <=? 1); [discriminate|]. injection E as <- <-.
    left. repeat split. discriminate.
  - destruct (main_screen _); [|discriminate].
    destruct (nth_error _ _); [|discriminate]. injection E as <- <-.
    left. repeat split. discriminate.
  - destruct (main_screen _); [|discriminate].
    destruct (nth_error _ _); [|discriminate]. injection E as <- <-.
    left. repeat split. discriminate.
  - destruct (main_screen _); [|discriminate].
    destruct (canSubmit (cart (app sess)) nm ad (isSubmitting (app sess))) eqn:C.
    + rewrite (submit_accepted _ _ _ C) in E. injection E as <- <-.
      right. exists nm, ad. repeat split. exact C.
    + unfold OrderForm_handleSubmit in E. rewrite C in E. injection E as <- <-.
      left. repeat split. discriminate.
  - destruct (submitPending sess) eqn:P; [|discriminate]. injection E as <- <-.
    left. repeat split. discriminate.
  - destruct (submitPending sess) eqn:P; [|discriminate]. injection E as <- <-.
    left. repeat split. discriminate.
  - destruct (main_screen _); [discriminate|]. injection E as <- <-.
    left. repeat split. discriminate.
Qed.

Lemma step_balance (sess sess' : Session num) ev calls :
  session_ok sess -> step sess ev = Some (sess', calls) ->
  (submit_calls calls + pending_count sess
   = (if is_settlement ev then 1 else 0) + pending_count sess')%nat.
Proof.
  intros I E. destruct (step_calls _ _ _ _ E) as [(-> & P & S)|(nm & ad & -> & C & -> & P)].
  - unfold pending_count. rewrite P. simpl.
    destruct (is_settlement ev); [|reflexivity].
    destruct (submitPending sess); [reflexivity|]. now destruct S.
  - unfold pending_count. rewrite P. simpl.
    apply canSubmit_true in C. destruct C as (_ & _ & _ & Hs).
    destruct I as (_ & H2 & _). rewrite Hs in H2. now rewrite <- H2.
Qed.

Lemma run_balance (sess sess' : Session num) evs calls :
  session_ok sess -> run sess evs = Some (sess', calls) ->
  (submit_calls calls + pending_count sess = settlements evs + pending_count sess')%nat.
Proof.
  revert sess calls. induction evs as [|ev evs IH]; intros sess calls I E; simpl in E.
  - injection E as <- <-. reflexivity.
  - destruct (step sess ev) as [[s1 c1]|] eqn:S; [|discriminate].
    destruct (run s1 evs) as [[s2 c2]|] eqn:S2; [|discriminate].
    injection E as <- <-.
    pose proof (step_balance _ _ _ _ I S) as B1.
    pose proof (IH _ _ (step_ok _ I S) S2) as B2.
    unfold submit_calls in *. rewrite filter_app, length_app.
    unfold settlements in *. simpl.
    destruct (is_settlement ev); simpl; lia.
Qed.

End Calls.

(** X9.  Over any run of the page from its mount, the calls to [submitOrder]
    number the settlements delivered plus one more exactly when a submission
    is still in flight at the end: a second call is never issued before the
    first has settled. *)
Theorem X9_one_call_at_a_time {num : Type} {JN : JsNumber num}
        (evs : list (Event num)) (sess : Session num) (calls : list (ServiceCall num)) :
  run (fst (mount num)) evs = Some (sess, calls) ->
  submit_calls calls
  = (settlements evs + (if isSubmitting (app sess) then 1 else 0))%nat /\
  (submit_calls calls <= settlements evs + 1)%nat.
Proof.
  intro E.
  pose proof (run_balance _ _ evs _ (mount_ok (num:=num)) E) as B.
  assert (I : session_ok sess).
  { apply reachable_ok. exact (run_reachable evs (reachable_mount (num:=num)) E). }
  destruct I as (_ & H2 & _).
  unfold pending_count in B. simpl in B. rewrite <- H2 in B.
  destruct (isSubmitting (app sess)); lia.
Qed.

(** X10.  Every call to [submitOrder] the page can issue carries a
    well-formed order: at least one line, no pizza id twice, every quantity
    at least 1, every pizza id an id of the loaded menu, a name and an
    address that are not blank, and as total the subtotal of the cart. *)
Theorem X10_payload_well_formed {num : Type} {JN : JsNumber num}
        (sess sess' : Session num) (ev : Event num)
        (calls : list (ServiceCall num)) (payload : OrderPayload num) :
  reachable sess ->
  step sess ev = Some (sess', calls) ->
  In (CallSubmitOrder payload) calls ->
  items payload <> [] /\
  NoDup (map (@pizzaId) (items payload)) /\
  Forall (fun line => 1 <= quantity line) (items payload) /\
  Forall (fun line => In (pizzaId line) (map (@pizza_id num) (pizzas (app sess))))
         (items payload) /\
  ~ blank (customerName payload) /\
  ~ blank (address payload) /\
  total payload = subtotal (cart (app sess)).
Proof.
  intros R E Hin. destruct (reachable_cart_good _ R) as (ND & Hq & Hm).
  destruct (step_calls _ _ _ _ E) as [(-> & _)|(nm & ad & -> & C & -> & _)];
    [contradiction|].
  destruct Hin as [Hin|[]]. injection Hin as <-. simpl.
  apply canSubmit_true in C. destruct C as (Hc & Hn & Ha & _).
  split.
  { destruct (cart (app sess)); [congruence | discriminate]. }
  split.
  { rewrite map_map. simpl. exact ND. }
  split.
  { rewrite Forall_forall in *. intros line Hl.
    apply in_map_iff in Hl. destruct Hl as (item & <- & Hi). simpl. now apply Hq. }
  split.
  { rewrite Forall_forall in *. intros line Hl.
    apply in_map_iff in Hl. destruct Hl as (item & <- & Hi). simpl.
    destruct (Hm item Hi) as (pizza & Hp & F).
    apply in_map_iff. exists pizza. split; [|exact Hp].
    unfold pizza_fields, item_fields in F. now injection F. }
  repeat split; assumption.
Qed.

Section MenuStates.

Context {num : Type} {JN : JsNumber num}.

Lemma step_needs_menu (sess sess' : Session num) ev calls :
  session_ok sess ->
  (pizzas (app sess) = [] -> nothing_ordered sess) ->
  step sess ev = Some (sess', calls) ->
  pizzas (app sess') = [] -> nothing_ordered sess'.
Proof.
  intros I Q E.
  pose proof I as (H1 & H2 & H3 & H4 & H5 & H6).
  assert (Loading : isPizzaLoading (app sess) = true -> nothing_ordered sess).
  { intro L. destruct (H5 L) as (Hc & Hs & Ho & _).
    repeat split; try assumption.
    rewrite Hs in H2. destruct (submitPending sess); [discriminate | reflexivity]. }
  destruct ev as [data|error|i|i|i|i|nm ad|response|error|]; unfold step in E.
  - destruct (fetchPending sess) eqn:F; [|discriminate]. injection E as <- <-.
    intros _. symmetry in H1. exact (Loading H1).
  - destruct (fetchPending sess) eqn:F; [|discriminate]. injection E as <- <-.
    intros _. symmetry in H1. exact (Loading H1).
  - destruct (_ && _); [|discriminate].
    destruct (nth_error _ _) eqn:N; [|discriminate]. injection E as <- <-.
    simpl. intro P. rewrite P in N. destruct i; discriminate.
  - destruct (main_screen _); [|discriminate].
    destruct (nth_error _ _) eqn:N; [|discriminate].
    destruct (_ <=? 1); [discriminate|]. injection E as <- <-.
    rewrite handleUpdateQuantity_setCart. simpl. intro P.
    destruct (Q P) as (C & _). rewrite C in N. destruct i; discriminate.
  - destruct (main_screen _); [|discriminate].
    destruct (nth_error _ _) eqn:N; [|discriminate]. injection E as <- <-.
    rewrite handleUpdateQuantity_setCart. simpl. intro P.
    destruct (Q P) as (C & _). rewrite C in N. destruct i; discriminate.
  - destruct (main_screen _); [|discriminate].
    destruct (nth_error _ _) eqn:N; [|discriminate]. injection E as <- <-.
    simpl. intro P.
    destruct (Q P) as (C & _). rewrite C in N. destruct i; discriminate.
  - destruct (main_screen _); [|discriminate].
    destruct (canSubmit (cart (app sess)) nm ad (isSubmitting (app sess))) eqn:C.
    + rewrite (submit_accepted _ _ _ C) in E. injection E as <- <-. simpl.
      intro P. destruct (Q P) as (Hc & _).
      apply canSubmit_true in C. destruct C as (C & _). contradiction.
    + unfold OrderForm_handleSubmit in E. rewrite C in E. injection E as <- <-.
      rewrite with_app_same. exact Q.
  - destruct (submitPending sess) eqn:P; [|discriminate]. injection E as <- <-.
    simpl. intro Z0. destruct (Q Z0) as (_ & ? & _). congruence.
  - destruct (submitPending sess) eqn:P; [|discriminate]. injection E as <- <-.
    simpl. intro Z0. destruct (Q Z0) as (_ & ? & _). congruence.
  - destruct (main_screen _) eqn:M; [discriminate|]. injection E as <- <-.
    simpl. intro P. destruct (Q P) as (_ & _ & C).
    unfold main_screen in M. rewrite C in M. discriminate.
Qed.

Lemma reachable_needs_menu (sess : Session num) :
  reachable sess -> pizzas (app sess) = [] -> nothing_ordered sess.
Proof.
  intro R. induction R as [|sess ev sess' calls R IH E].
  - intros _. repeat split.
  - eapply step_needs_menu; [apply reachable_ok; exact R | exact IH | exact E].
Qed.

(** With the loading over, no menu and nothing ordered, no event changes
    anything. *)
Lemma step_without_menu (sess sess' : Session num) ev calls :
  fetchPending sess = false -> pizzas (app sess) = [] -> nothing_ordered sess ->
  step sess ev = Some (sess', calls) -> sess' = sess /\ calls = [].
Proof.
  intros F P (C & Pn & O) E.
  assert (M : main_screen (app sess) = true) by (unfold main_screen; now rewrite O).
  destruct ev as [data|error|i|i|i|i|nm ad|response|error|]; unfold step in E;
    rewrite ?F, ?M, ?Pn, ?P, ?C in E; simpl in E;
    try (destruct i; discriminate E); try discriminate E.
  - destruct (menu_listed (app sess)); destruct i; discriminate E.
  - unfold OrderForm_handleSubmit, canSubmit in E. rewrite C in E. simpl in E.
    injection E as <- <-. rewrite with_app_same. split; reflexivity.
Qed.

Lemma run_without_menu (sess sess' : Session num) evs calls :
  fetchPending sess = false -> pizzas (app sess) = [] -> nothing_ordered sess ->
  run sess evs = Some (sess', calls) -> sess' = sess /\ calls = [].
Proof.
  intros F P Q. revert sess' calls.
  induction evs as [|ev evs IH]; intros sess' calls E; simpl in E.
  - injection E as <- <-. split; reflexivity.
  - destruct (step sess ev) as [[s1 c1]|] eqn:S; [|discriminate].
    destruct (step_without_menu _ _ _ _ F P Q S) as (-> & ->).
    destruct (run sess evs) as [[s2 c2]|] eqn:S2; [|discriminate].
    injection E as <- <-. destruct (IH _ _ eq_refl) as (-> & ->).
    split; reflexivity.
Qed.

End MenuStates.

(** X11.  In every reachable session that shows the main screen, the menu
    section shows exactly one of three things: the loading indicator, the
    error banner, or the list of pizza cards; on the confirmation screen it
    shows none of them.  The error banner comes with an empty menu, and a
    pizza card can be clicked only where the cards are shown. *)
Theorem X11_menu_section {num : Type} {JN : JsNumber num} (sess : Session num) :
  reachable sess ->
  (main_screen (app sess) = true ->
   (shows_loading (app sess) = true /\ shows_menu_error (app sess) = false /\
    shows_cards (app sess) = false) \/
   (shows_loading (app sess) = false /\ shows_menu_error (app sess) = true /\
    shows_cards (app sess) = false) \/
   (shows_loading (app sess) = false /\ shows_menu_error (app sess) = false /\
    shows_cards (app sess) = true)) /\
  (main_screen (app sess) = false ->
   shows_loading (app sess) = false /\ shows_menu_error (app sess) = false /\
   shows_cards (app sess) = false) /\
  (shows_menu_error (app sess) = true -> pizzas (app sess) = []) /\
  (forall i, step sess (EvClickAdd i) <> None -> shows_cards (app sess) = true).
Proof.
  intro R. destruct (reachable_ok R) as (_ & _ & _ & _ & H5 & H6).
  unfold shows_loading, shows_menu_error, shows_cards, menu_listed.
  split; [|split; [|split]].
  - intros ->. simpl.
    destruct (isPizzaLoading (app sess)) eqn:L.
    + destruct H5 as (_ & _ & _ & -> & _); [reflexivity|]. left. repeat split.
    + destruct (truthy (pizzaError (app sess))); [right; left | right; right];
        repeat split.
  - intros ->. repeat split.
  - intro T. apply andb_true_iff in T. destruct T as (_ & T).
    apply H6. intro N. rewrite N in T. discriminate.
  - intros i E. unfold step, menu_listed in E.
    destruct (main_screen (app sess) &&
              (negb (isPizzaLoading (app sess)) && negb (truthy (pizzaError (app sess)))));
      [reflexivity | contradiction].
Qed.

(** X12.  A failed fetch, and likewise a fetch that brings an empty menu, is
    final: from then on no event the page offers changes anything and no
    call is ever issued; the cart is and stays empty. *)
Theorem X12_failed_fetch_is_final {num : Type} {JN : JsNumber num}
        (sess0 sess sess' : Session num) (ev : Event num) (error : JsError)
        (calls0 calls : list (ServiceCall num)) (evs : list (Event num)) :
  reachable sess0 ->
  ev = EvFetchRejected error \/ ev = EvFetchResolved [] ->
  step sess0 ev = Some (sess, calls0) ->
  run sess evs = Some (sess', calls) ->
  sess' = sess /\ calls = [] /\ cart (app sess) = [] /\ pizzas (app sess) = [].
Proof.
  intros R Hev S E.
  assert (R' : reachable sess) by (eapply reachable_step; eassumption).
  destruct (reachable_ok R) as (H1 & _ & _ & _ & H5 & _).
  assert (F : fetchPending sess = false /\ pizzas (app sess) = []).
  { destruct Hev as [-> | ->]; unfold step in S;
      destruct (fetchPending sess0) eqn:F0; try discriminate;
      injection S as <- <-; simpl; split; try reflexivity.
    symmetry in H1. now apply H5. }
  destruct F as (F & P).
  pose proof (reachable_needs_menu _ R' P) as Q.
  destruct (run_without_menu _ _ _ _ F P Q E) as (-> & ->).
  destruct Q as (C & _). repeat split; assumption.
Qed.

(** X13.  While the menu is loading, the only events that change anything
    are the two ways the fetch can settle: nothing can be put in the cart
    and nothing can be submitted before the menu has arrived. *)
Theorem X13_nothing_before_menu {num : Type} {JN : JsNumber num}
        (sess sess' : Session num) (ev : Event num) (calls : list (ServiceCall num)) :
  reachable sess ->
  isPizzaLoading (app sess) = true ->
  step sess ev = Some (sess', calls) ->
  (exists data, ev = EvFetchResolved data) \/
  (exists error, ev = EvFetchRejected error) \/
  (sess' = sess /\ calls = []).
Proof.
  intros R L E.
  pose proof (reachable_ok R) as (H1 & H2 & _ & _ & H5 & _).
  destruct (H5 L) as (C & Hs & O & _ & P).
  assert (Pn : submitPending sess = None).
  { rewrite Hs in H2. destruct (submitPending sess); [discriminate | reflexivity]. }
  assert (M : main_screen (app sess) = true) by (unfold main_screen; now rewrite O).
  destruct ev as [data|error|i|i|i|i|nm ad|response|error|];
    [left; eexists; reflexivity | right; left; eexists; reflexivity | | | | | | | |];
    right; right; unfold step in E;
    rewrite ?M, ?Pn, ?P, ?C in E; simpl in E;
    try (destruct i; discriminate E); try discriminate E.
  - unfold menu_listed in E. rewrite L in E. discriminate E.
  - unfold OrderForm_handleSubmit, canSubmit in E. rewrite C in E. simpl in E.
    injection E as <- <-. rewrite with_app_same. split; reflexivity.
Qed.

(** X14.  A submission error, once shown, is governed by two events only:
    a click on a pizza card and a submission of the form that passes the
    guard (and so issues a call) clear it; through every other event the
    page offers, quantity changes, removals and refused submissions
    included, it stays exactly as it is. *)
Theorem X14_error_stays {num : Type} {JN : JsNumber num}
        (sess sess' : Session num) (ev : Event num)
        (calls : list (ServiceCall num)) (message : jsstring) :
  reachable sess ->
  submissionError (app sess) = Some message ->
  step sess ev = Some (sess', calls) ->
  submissionError (app sess') = (if clears_error ev calls then None else Some message).
Proof.
  intros R Err E.
  pose proof (reachable_ok R) as (_ & H2 & H3 & _).
  assert (Pn : submitPending sess = None).
  { destruct (isSubmitting (app sess)) eqn:S.
    - destruct H3 as (N & _); [reflexivity | congruence].
    - destruct (submitPending sess); [discriminate | reflexivity]. }
  destruct ev as [data|error|i|i|i|i|nm ad|response|error|]; unfold step in E;
    rewrite ?Pn in E; try discriminate E; cbn [clears_error].
  - destruct (fetchPending sess); [|discriminate]. now injection E as <- <-.
  - destruct (fetchPending sess); [|discriminate]. now injection E as <- <-.
  - destruct (_ && _); [|discriminate].
    destruct (nth_error _ _); [|discriminate]. now injection E as <- <-.
  - destruct (main_screen _); [|discriminate].
    destruct (nth_error _ _); [|discriminate].
    destruct (_ <=? 1); [discriminate|]. injection E as <- <-.
    now rewrite handleUpdateQuantity_setCart.
  - destruct (main_screen _); [|discriminate].
    destruct (nth_error _ _); [|discriminate]. injection E as <- <-.
    now rewrite handleUpdateQuantity_setCart.
  - destruct (main_screen _); [|discriminate].
    destruct (nth_error _ _); [|discriminate]. now injection E as <- <-.
  - destruct (main_screen _); [|discriminate].
    destruct (canSubmit (cart (app sess)) nm ad (isSubmitting (app sess))) eqn:C.
    + rewrite (submit_accepted _ _ _ C) in E. now injection E as <- <-.
    + unfold OrderForm_handleSubmit in E. rewrite C in E. injection E as <- <-.
      now rewrite with_app_same.
  - destruct (main_screen _); [discriminate|]. now injection E as <- <-.
Qed.

(** X15.  After a failed submission the form can be submitted again as soon
    as the cart is not empty: the new call is built afresh from the cart as
    it stands then, with its subtotal, and the error of the failed attempt is
    cleared.  With an empty cart the form is refused and the error stays. *)
Theorem X15_submit_again {num : Type} {JN : JsNumber num}
        (sess sess' : Session num) (error : JsError) (name addr : jsstring) :
  reachable sess ->
  step sess (EvSubmitRejected error) = Some (sess', []) ->
  ~ blank name -> ~ blank addr ->
  cart (app sess') = cart (app sess) /\
  (cart (app sess) <> [] ->
   exists sess'',
     step sess' (EvSubmitForm name addr)
     = Some (sess'',
             [CallSubmitOrder
                (mkOrderPayload name addr
                   (map (fun item => mkOrderLine (item_id item) (item_quantity item))
                        (cart (app sess)))
                   (subtotal (cart (app sess))))]) /\
     submissionError (app sess'') = None /\
     isSubmitting (app sess'') = true) /\
  (cart (app sess) = [] ->
   step sess' (EvSubmitForm name addr) = Some (sess', []) /\
   submissionError (app sess') <> None).
Proof.
  intros R E Hn Ha.
  pose proof (reachable_ok R) as (_ & H2 & H3 & _).
  unfold step in E. destruct (submitPending sess) eqn:P; [|discriminate].
  injection E as <-. simpl in H2.
  destruct (H3 H2) as (_ & O).
  split; [reflexivity|]. split.
  - intro C.
    assert (Can : canSubmit (cart (app sess)) name addr false = true).
    { apply canSubmit_true. tauto. }
    pose proof (submit_accepted name addr (submit_rejected error (app sess)) Can) as A.
    eexists. unfold step, main_screen. simpl app. rewrite A. simpl. rewrite O.
    split; [reflexivity|]. split; reflexivity.
  - intro C. unfold step, main_screen. simpl. rewrite O.
    unfold OrderForm_handleSubmit, canSubmit. simpl. rewrite C. simpl.
    split; [reflexivity | discriminate].
Qed.

(** X16.  The total on the confirmation is the subtotal of the cart as it
    was when the form was submitted, and belongs to exactly the lines that
    were sent; what was done to the cart while the call was in flight does
    not enter it. *)
Theorem X16_total_charged {num : Type} {JN : JsNumber num}
        (sess0 sess1 sess2 sess3 : Session num) (name addr : jsstring)
        (payload : OrderPayload num) (evs : list (Event num))
        (calls calls' : list (ServiceCall num)) (response : Response) :
  reachable sess0 ->
  step sess0 (EvSubmitForm name addr) = Some (sess1, [CallSubmitOrder payload]) ->
  no_settlement evs = true ->
  run sess1 evs = Some (sess2, calls) ->
  step sess2 (EvSubmitResolved response) = Some (sess3, calls') ->
  items payload
  = map (fun item => mkOrderLine (item_id item) (item_quantity item)) (cart (app sess0)) /\
  option_map (@conf_total num) (orderConfirmation (app sess3))
  = Some (subtotal (cart (app sess0))).
Proof.
  intros R S NS Rn Res.
  pose proof (reachable_ok R) as I0.
  pose proof (step_ok _ I0 S) as I1.
  destruct (step_calls _ _ _ _ S) as [(Hc & _)|(nm & ad & Hev & C & Hc & P1)];
    [discriminate|].
  injection Hev as <- <-. injection Hc as ->.
  destruct (run_in_flight evs I1 P1 NS Rn) as (_ & P2 & _ & _).
  unfold step in Res. rewrite P2 in Res. injection Res as <- <-.
  split; reflexivity.
Qed.

(** * The order form *)

Section PageLemmas.

Context {num : Type} {JN : JsNumber num}.

Lemma render_form_none (before : option FormFields) (s : AppState num) :
  render_form before s = None <-> main_screen s = false.
Proof.
  unfold render_form. destruct (main_screen s); [|tauto].
  destruct before; split; discriminate.
Qed.

(** A step of the page is a step of the session, or typing. *)
Lemma page_step_session (pg pg' : Page num) ev calls :
  page_step pg ev = Some (pg', calls) ->
  (session pg' = session pg /\ calls = [] /\ form pg <> None /\ form pg' <> None /\
   isSubmitting (app (session pg)) = false /\
   ((exists v, ev = PgTypeName v) \/ (exists v, ev = PgTypeAddress v)))
  \/
  (exists sev,
     step (session pg) sev = Some (session pg', calls) /\
     form pg' = render_form (form pg) (app (session pg')) /\
     ((ev = PgSubmit /\ exists f, form pg = Some f /\
                                  sev = EvSubmitForm (field_name f) (field_address f))
      \/ (ev = PgSession sev /\ forall n a, sev <> EvSubmitForm n a))).
Proof.
  intro E. destruct ev as [v|v| |sev]; cbn [page_step] in E.
  - destruct (form pg) eqn:F; [|discriminate].
    destruct (isSubmitting _) eqn:S; [discriminate|]. injection E as <- <-.
    left. simpl. repeat split; try congruence. left. eexists. reflexivity.
  - destruct (form pg) eqn:F; [|discriminate].
    destruct (isSubmitting _) eqn:S; [discriminate|]. injection E as <- <-.
    left. simpl. repeat split; try congruence. right. eexists. reflexivity.
  - destruct (form pg) as [f|] eqn:F; [|discriminate].
    unfold after_session_step in E.
    destruct (step _ _) as [[s' c']|] eqn:S; [|discriminate]. injection E as <- <-.
    right. eexists. split; [exact S|]. simpl. rewrite F. split; [reflexivity|].
    left. split; [reflexivity|]. exists f. split; reflexivity.
  - right. exists sev.
    assert (A : after_session_step pg (step (session pg) sev) = Some (pg', calls)
                /\ forall n a, sev <> EvSubmitForm n a).
    { destruct sev; try discriminate E; split; try exact E; intros; discriminate. }
    destruct A as (A & NS). unfold after_session_step in A.
    destruct (step _ _) as [[s' c']|] eqn:S; [|discriminate]. injection A as <- <-.
    simpl. split; [reflexivity|]. split; [reflexivity|]. right. split; [reflexivity | exact NS].
Qed.

(** The session of a reachable page is reachable, and the form is mounted
    exactly when the main screen is shown. *)
Lemma page_reachable_ok (pg : Page num) :
  page_reachable pg ->
  reachable (session pg) /\ (form pg = None <-> main_screen (app (session pg)) = false).
Proof.
  intro R. induction R as [|pg ev pg' calls R (IHr & IHf) E].
  - split; [apply reachable_mount|]. simpl. split; discriminate.
  - destruct (page_step_session _ _ _ _ E)
      as [(Hs & _ & F & F' & _)|(sev & S & F & _)].
    + rewrite Hs. split; [exact IHr|]. split; [contradiction|].
      intro M. apply IHf in M. contradiction.
    + split; [eapply reachable_step; eassumption|].
      rewrite F. apply render_form_none.
Qed.

(** While a submission is in flight the page keeps the form as it is. *)
Lemma page_step_in_flight (pg pg' : Page num) ev calls kept f :
  session_ok (session pg) ->
  submitPending (session pg) = Some kept ->
  form pg = Some f ->
  is_page_settlement ev = false ->
  page_step pg ev = Some (pg', calls) ->
  session_ok (session pg') /\ submitPending (session pg') = Some kept /\
  form pg' = Some f /\ calls = [].
Proof.
  intros I P F NS E.
  assert (Sub : isSubmitting (app (session pg)) = true).
  { destruct I as (_ & -> & _). now rewrite P. }
  destruct (page_step_session _ _ _ _ E)
    as [(_ & _ & _ & _ & S & _)|(sev & S & F' & Hev)]; [congruence|].
  assert (NS' : is_settlement sev = false).
  { destruct Hev as [(-> & f' & _ & ->)|(-> & _)]; [reflexivity | exact NS]. }
  pose proof (step_ok _ I S) as I'.
  destruct (step_in_flight _ I P NS' S) as (P' & -> & _).
  split; [exact I'|]. split; [exact P'|]. split; [|reflexivity].
  rewrite F', F. unfold render_form.
  replace (main_screen (app (session pg'))) with true; [reflexivity|].
  symmetry. apply main_screen_true.
  destruct I' as (_ & H2 & H3 & _). apply H3. now rewrite H2, P'.
Qed.

Lemma page_run_in_flight (pg pg' : Page num) evs calls kept f :
  session_ok (session pg) ->
  submitPending (session pg) = Some kept ->
  form pg = Some f ->
  no_page_settlement evs = true ->
  page_run pg evs = Some (pg', calls) ->
  session_ok (session pg') /\ submitPending (session pg') = Some kept /\
  form pg' = Some f /\ calls = [].
Proof.
  revert pg calls. induction evs as [|ev evs IH]; intros pg calls I P F NS E; simpl in *.
  - injection E as <- <-. auto.
  - apply andb_true_iff in NS. destruct NS as [NS1 NS2].
    apply negb_true_iff in NS1.
    destruct (page_step pg ev) as [[p1 c1]|] eqn:S; [|discriminate].
    destruct (page_run p1 evs) as [[p2 c2]|] eqn:S2; [|discriminate].
    injection E as <- <-.
    destruct (page_step_in_flight _ _ _ _ _ _ I P F NS1 S) as (I1 & P1 & F1 & ->).
    exact (IH _ _ I1 P1 F1 NS2 S2).
Qed.

End PageLemmas.

(** X17.  A failed submission leaves the form filled in.  From the moment
    the form is submitted and accepted until the failure arrives the two
    fields cannot be changed and keep the values that were sent as
    [customerName] and [address]; after the failure they still hold them and
    can be edited again. *)
Theorem X17_form_survives_failure {num : Type} {JN : JsNumber num}
        (pg0 pg1 pg2 pg3 : Page num) (f : FormFields) (payload : OrderPayload num)
        (evs : list (PageEvent num)) (calls calls' : list (ServiceCall num))
        (error : JsError) :
  page_reachable pg0 ->
  form pg0 = Some f ->
  page_step pg0 PgSubmit = Some (pg1, [CallSubmitOrder payload]) ->
  no_page_settlement evs = true ->
  page_run pg1 evs = Some (pg2, calls) ->
  page_step pg2 (PgSession (EvSubmitRejected error)) = Some (pg3, calls') ->
  customerName payload = field_name f /\
  address payload = field_address f /\
  form pg2 = Some f /\
  (forall v, page_step pg2 (PgTypeName v) = None) /\
  (forall v, page_step pg2 (PgTypeAddress v) = None) /\
  form pg3 = Some f /\
  (forall v, page_step pg3 (PgTypeName v)
             = Some (mkPage (session pg3) (Some (mkFormFields v (field_address f))), [])).
Proof.
  intros R F S NS Rn Rej.
  destruct (page_reachable_ok _ R) as (R0 & _).
  pose proof (reachable_ok R0) as I0.
  cbn [page_step] in S. rewrite F in S. unfold after_session_step in S.
  destruct (step (session pg0) _) as [[s1 c1]|] eqn:S1; [|discriminate].
  injection S as <- ->.
  pose proof (step_ok _ I0 S1) as I1.
  destruct (step_calls _ _ _ _ S1) as [(Hc & _)|(nm & ad & Hev & C & Hc & P1)];
    [discriminate|].
  injection Hev as <- <-. injection Hc as ->.
  assert (F1 : render_form (Some f) (app s1) = Some f).
  { unfold render_form.
    replace (main_screen (app s1)) with true; [reflexivity|].
    symmetry. apply main_screen_true.
    destruct I1 as (_ & H2 & H3 & _). apply H3. now rewrite H2, P1. }
  rewrite F in Rn.
  destruct (page_run_in_flight
              (mkPage s1 (render_form (Some f) (app s1))) pg2 evs calls _ f
              I1 P1 F1 NS Rn) as (I2 & P2 & F2 & _).
  assert (Sub : isSubmitting (app (session pg2)) = true).
  { destruct I2 as (_ & -> & _). now rewrite P2. }
  cbn [page_step] in Rej. unfold after_session_step, step in Rej. rewrite P2 in Rej.
  injection Rej as <- <-.
  assert (M3 : main_screen (submit_rejected error (app (session pg2))) = true).
  { apply main_screen_true. simpl. destruct I2 as (_ & _ & H3 & _). now apply H3. }
  split; [reflexivity|]. split; [reflexivity|]. split; [exact F2|].
  split; [intro v; cbn [page_step]; now rewrite F2, Sub|].
  split; [intro v; cbn [page_step]; now rewrite F2, Sub|].
  simpl. unfold render_form. simpl in M3. rewrite M3, F2.
  split; [reflexivity|]. intro v. reflexivity.
Qed.

(** X18.  While the confirmation is shown the form does not exist: nothing
    can be typed or submitted.  Starting a new order brings it back empty,
    and submitting it as it is does nothing: name and address have to be
    typed again before another order can go out. *)
Theorem X18_fresh_form_after_confirmation {num : Type} {JN : JsNumber num}
        (pg : Page num) (conf : Confirmation num) :
  page_reachable pg ->
  orderConfirmation (app (session pg)) = Some conf ->
  form pg = None /\
  (forall v, page_step pg (PgTypeName v) = None) /\
  (forall v, page_step pg (PgTypeAddress v) = None) /\
  page_step pg PgSubmit = None /\
  exists pg',
    page_step pg (PgSession EvPlaceAnother) = Some (pg', []) /\
    form pg' = Some (mkFormFields [] []) /\
    page_step pg' PgSubmit = Some (pg', []).
Proof.
  intros R C. destruct (page_reachable_ok _ R) as (_ & Hf).
  assert (M : main_screen (app (session pg)) = false)
    by (unfold main_screen; now rewrite C).
  assert (F : form pg = None) by (now apply Hf).
  split; [exact F|].
  split; [intro v; cbn [page_step]; now rewrite F|].
  split; [intro v; cbn [page_step]; now rewrite F|].
  split; [cbn [page_step]; now rewrite F|].
  eexists. cbn [page_step]. unfold after_session_step at 1, step at 1. rewrite M. rewrite F.
  split; [reflexivity|]. unfold render_form, main_screen. simpl.
  split; [reflexivity|].
  unfold after_session_step, step, main_screen. simpl.
  unfold OrderForm_handleSubmit, canSubmit. simpl.
  rewrite andb_false_r. simpl.
  destruct pg as [[[] ? ?] ?]; reflexivity.
Qed.

(** * The further properties on the sample data *)

Lemma page_run_reachable {num : Type} {JN : JsNumber num}
      (pg pg' : Page num) (evs : list (PageEvent num)) (calls : list (ServiceCall num)) :
  page_reachable pg -> page_run pg evs = Some (pg', calls) -> page_reachable pg'.
Proof.
  revert pg calls. induction evs as [|ev evs IH]; intros pg calls R E; simpl in E.
  - injection E as <- <-. exact R.
  - destruct (page_step pg ev) as [[p1 c1]|] eqn:S; [|discriminate].
    destruct (page_run p1 evs) as [[p2 c2]|] eqn:S2; [|discriminate].
    injection E as <- <-.
    eapply IH; [|exact S2]. eapply page_reachable_step; eassumption.
Qed.

Lemma page_after_reachable (evs : list (PageEvent Z)) : page_reachable (page_after evs).
Proof.
  unfold page_after.
  destruct (page_run (fst (mount_page Z)) evs) as [[pg calls]|] eqn:E.
  - exact (page_run_reachable _ _ evs _ (page_reachable_mount (num:=Z)) E).
  - apply page_reachable_mount.
Qed.

Lemma X1_remove_item_witness :
  map (fun item => (item_id item, item_quantity item))
      (cart (handleRemoveItem 1 (app (session_after fill_cart)))) = [(2, 1)]
  /\ absent 1 (cart (handleRemoveItem 1 (app (session_after fill_cart)))).
Proof.
  split; [reflexivity|].
  exact (proj1 (X1_remove_item 1 (app (session_after fill_cart)))).
Defined.

Lemma X2_add_then_remove_witness :
  cart (handleRemoveItem 1 (handleAddToCart pizzaA (initialState Z))) = [].
Proof.
  apply (proj2 (X2_add_then_remove pizzaA (initialState Z))).
  intros item [].
Defined.

Lemma X3_repeated_add_witness :
  cart (apply_ops (initialState Z) (repeat (AddItem pizzaA) 3))
  = [mkCartItem 1 (js "A") (js "first item") 10 3].
Proof.
  apply (X3_repeated_add pizzaA (initialState Z) 2).
  - intros item [].
  - vm_compute. discriminate.
Defined.

Lemma X4_fields_captured_witness :
  map (@item_fields Z)
      (cart (handleAddToCart (mkPizza 1 (js "renamed") (js "changed") 99)
                             (app (session_after fill_cart))))
  = [(1, js "A", js "first item", 10); (2, js "B", js "second item", 5)].
Proof.
  rewrite (proj1 (X4_fields_captured (mkPizza 1 (js "renamed") (js "changed") 99) 0 0
                                     (app (session_after fill_cart)))).
  - reflexivity.
  - intro A. apply (A lineA2); [left; reflexivity | reflexivity].
Defined.

Lemma X5_set_quantity_compose_witness :
  handleUpdateQuantity 1 7 (handleUpdateQuantity 1 3 (app (session_after fill_cart)))
  = handleUpdateQuantity 1 7 (app (session_after fill_cart))
  /\ handleUpdateQuantity 1 7 (handleUpdateQuantity 1 0 (app (session_after fill_cart)))
     = handleRemoveItem 1 (app (session_after fill_cart)).
Proof.
  split.
  - apply (proj1 (X5_set_quantity_compose 2 1 7 3 (app (session_after fill_cart)))). lia.
  - apply (proj1 (proj2 (X5_set_quantity_compose 2 1 7 0 (app (session_after fill_cart))))).
    lia.
Defined.

Lemma X6_reachable_cart_witness :
  NoDup (map (@item_id Z)
             (cart (app (session_after (fill_cart ++ [EvClickPlus 1; EvClickRemove 0]))))).
Proof.
  apply (X6_reachable_cart (session_after (fill_cart ++ [EvClickPlus 1; EvClickRemove 0]))).
  apply session_after_reachable.
Defined.

Lemma X7_plus_minus_witness :
  run (session_after fill_cart) [EvClickPlus 0; EvClickMinus 0]
  = Some (session_after fill_cart, [])
  /\ step (session_after fill_cart) (EvClickMinus 1) = None.
Proof.
  split.
  - destruct (X7_plus_minus (session_after fill_cart) 0 lineA2) as (Back & _).
    + apply session_after_reachable.
    + reflexivity.
    + apply Back. reflexivity.
  - destruct (X7_plus_minus (session_after fill_cart) 1
                            (mkCartItem 2 (js "B") (js "second item") 5 1))
      as (_ & _ & Off & _).
    + apply session_after_reachable.
    + reflexivity.
    + apply Off. reflexivity.
Defined.

Lemma X8_remove_row_witness :
  exists pre post sess',
    cart (app (session_after fill_cart)) = pre ++ lineA2 :: post /\
    List.length pre = 0%nat /\
    step (session_after fill_cart) (EvClickRemove 0) = Some (sess', []) /\
    cart (app sess') = pre ++ post.
Proof.
  destruct (X8_remove_row (session_after fill_cart) 0 lineA2)
    as (pre & post & sess' & E & L & S & C & _).
  - apply session_after_reachable.
  - reflexivity.
  - exists pre, post, sess'. repeat split; assumption.
Defined.

Lemma X9_one_call_at_a_time_witness :
  submit_calls [CallSubmitOrder sent_order; CallSubmitOrder sent_order]
  = (settlements (fill_cart ++ [submit_ann; EvSubmitRejected server_rejected; submit_ann])
     + (if isSubmitting
             (app (session_after
                     (fill_cart ++
                      [submit_ann; EvSubmitRejected server_rejected; submit_ann])))
        then 1 else 0))%nat.
Proof.
  apply (X9_one_call_at_a_time
           (fill_cart ++ [submit_ann; EvSubmitRejected server_rejected; submit_ann])
           (session_after
              (fill_cart ++ [submit_ann; EvSubmitRejected server_rejected; submit_ann]))
           [CallSubmitOrder sent_order; CallSubmitOrder sent_order]).
  reflexivity.
Defined.

Lemma X10_payload_well_formed_witness :
  items sent_order <> [] /\ ~ blank (customerName sent_order).
Proof.
  destruct (X10_payload_well_formed
              (session_after fill_cart) (session_after (fill_cart ++ [submit_ann]))
              submit_ann [CallSubmitOrder sent_order] sent_order)
    as (H1 & _ & _ & _ & H5 & _).
  - apply session_after_reachable.
  - reflexivity.
  - left. reflexivity.
  - split; assumption.
Defined.

Lemma X11_menu_section_witness :
  pizzas (app (session_after [EvFetchRejected network_error])) = []
  /\ shows_cards
       (app (session_after (fill_cart ++ [submit_ann; EvSubmitResolved sample_response])))
     = false.
Proof.
  destruct (X11_menu_section (session_after [EvFetchRejected network_error]))
    as (_ & _ & Empty & _);
    [apply session_after_reachable|].
  destruct (X11_menu_section
              (session_after (fill_cart ++ [submit_ann; EvSubmitResolved sample_response])))
    as (_ & Gone & _);
    [apply session_after_reachable|].
  split; [apply Empty; reflexivity | apply Gone; reflexivity].
Defined.

Lemma X12_failed_fetch_is_final_witness :
  cart (app (session_after [EvFetchRejected network_error])) = []
  /\ pizzas (app (session_after [EvFetchRejected network_error])) = [].
Proof.
  destruct (X12_failed_fetch_is_final
              (fst (mount Z)) (session_after [EvFetchRejected network_error])
              (session_after [EvFetchRejected network_error])
              (EvFetchRejected network_error) network_error [] [] [submit_ann])
    as (_ & _ & C & P).
  - apply reachable_mount.
  - left. reflexivity.
  - reflexivity.
  - reflexivity.
  - split; assumption.
Defined.

Lemma X13_nothing_before_menu_witness :
  (exists data, submit_ann = EvFetchResolved data) \/
  (exists error, submit_ann = EvFetchRejected error) \/
  (fst (mount Z) = fst (mount Z) /\ @nil (ServiceCall Z) = []).
Proof.
  apply (X13_nothing_before_menu (fst (mount Z)) (fst (mount Z)) submit_ann []).
  - apply reachable_mount.
  - reflexivity.
  - reflexivity.
Defined.

Lemma X14_error_stays_witness :
  submissionError
    (app (session_after
            (fill_cart ++ [submit_ann; EvSubmitRejected server_rejected; EvClickPlus 0])))
  = Some (js "Order submission failed: Server rejected the order due to invalid data.")
  /\
  submissionError
    (app (session_after
            (fill_cart ++ [submit_ann; EvSubmitRejected server_rejected; EvClickAdd 0])))
  = None.
Proof.
  split.
  - apply (X14_error_stays
             (session_after (fill_cart ++ [submit_ann; EvSubmitRejected server_rejected]))
             (session_after
                (fill_cart ++ [submit_ann; EvSubmitRejected server_rejected; EvClickPlus 0]))
             (EvClickPlus 0) []).
    + apply session_after_reachable.
    + reflexivity.
    + reflexivity.
  - apply (X14_error_stays
             (session_after (fill_cart ++ [submit_ann; EvSubmitRejected server_rejected]))
             (session_after
                (fill_cart ++ [submit_ann; EvSubmitRejected server_rejected; EvClickAdd 0]))
             (EvClickAdd 0) []
             (js "Order submission failed: Server rejected the order due to invalid data.")).
    + apply session_after_reachable.
    + reflexivity.
    + reflexivity.
Defined.

Lemma X15_submit_again_witness :
  exists sess'',
    step (session_after (fill_cart ++ [submit_ann; EvSubmitRejected server_rejected]))
         submit_ann
    = Some (sess'', [CallSubmitOrder sent_order]) /\
    submissionError (app sess'') = None.
Proof.
  destruct (X15_submit_again
              (session_after (fill_cart ++ [submit_ann]))
              (session_after (fill_cart ++ [submit_ann; EvSubmitRejected server_rejected]))
              server_rejected ann main_street)
    as (_ & Again & _).
  - apply session_after_reachable.
  - reflexivity.
  - exact ann_not_blank.
  - exact main_street_not_blank.
  - destruct Again as (sess'' & S & E & _); [discriminate|].
    exists sess''. split; [exact S | exact E].
Defined.

Lemma X16_total_charged_witness :
  option_map (@conf_total Z)
    (orderConfirmation
       (app (session_after
               (fill_cart ++ [submit_ann; EvClickAdd 1; EvSubmitResolved sample_response]))))
  = Some 25
  /\ subtotal
       (cart (app (session_after (fill_cart ++ [submit_ann; EvClickAdd 1])))) = 30.
Proof.
  split; [|reflexivity].
  destruct (X16_total_charged
              (session_after fill_cart)
              (session_after (fill_cart ++ [submit_ann]))
              (session_after (fill_cart ++ [submit_ann; EvClickAdd 1]))
              (session_after
                 (fill_cart ++ [submit_ann; EvClickAdd 1; EvSubmitResolved sample_response]))
              ann main_street sent_order [EvClickAdd 1] [] [] sample_response)
    as (_ & T).
  - apply session_after_reachable.
  - reflexivity.
  - reflexivity.
  - reflexivity.
  - reflexivity.
  - exact T.
Defined.

Lemma X17_form_survives_failure_witness :
  form (page_after
          (fill_page ++ [PgSubmit; PgSession (EvClickAdd 1);
                         PgSession (EvSubmitRejected server_rejected)]))
  = Some (mkFormFields ann main_street)
  /\ customerName sent_order = ann.
Proof.
  destruct (X17_form_survives_failure
              (page_after fill_page)
              (page_after (fill_page ++ [PgSubmit]))
              (page_after (fill_page ++ [PgSubmit; PgSession (EvClickAdd 1)]))
              (page_after
                 (fill_page ++ [PgSubmit; PgSession (EvClickAdd 1);
                                PgSession (EvSubmitRejected server_rejected)]))
              (mkFormFields ann main_street) sent_order
              [PgSession (EvClickAdd 1)] [] [] server_rejected)
    as (Hn & _ & _ & _ & _ & F3 & _).
  - apply page_after_reachable.
  - reflexivity.
  - reflexivity.
  - reflexivity.
  - reflexivity.
  - reflexivity.
  - split; [exact F3 | exact Hn].
Defined.

Lemma X18_fresh_form_after_confirmation_witness :
  form (page_after
          (fill_page ++ [PgSubmit; PgSession (EvSubmitResolved sample_response)]))
  = None
  /\ exists pg',
       page_step
         (page_after
            (fill_page ++ [PgSubmit; PgSession (EvSubmitResolved sample_response)]))
         (PgSession EvPlaceAnother) = Some (pg', []) /\
       form pg' = Some (mkFormFields [] []) /\
       page_step pg' PgSubmit = Some (pg', []).
Proof.
  destruct (X18_fresh_form_after_confirmation
              (page_after
                 (fill_page ++ [PgSubmit; PgSession (EvSubmitResolved sample_response)]))
              (mkConfirmation (js "ORD-1") (js "2024-01-01T00:00:00.000Z") 25))
    as (F & _ & _ & _ & Next).
  - apply page_after_reachable.
  - reflexivity.
  - split; [exact F | exact Next].
Defined.
